(** * vps-bot: the VPS registry, its lifecycle controller and the command router

    A shallow embedding of [src/index.js].  The class [VpsManager] keeps a
    JavaScript [Map] from user ids to record objects and a counter.  The
    record objects are mutable and shared: the map, the handlers and the
    callback scheduled by [setTimeout] all hold the same object.  The
    embedding therefore keeps the objects in a store addressed by
    references; the map and the pending timers hold references.

    Strings are byte strings.  User ids, names and record ids are only ever
    compared and concatenated, which a byte string models exactly.  The
    counter [vpsIdCounter] is a JavaScript number that starts at 1000 and is
    only incremented; increments are exact below 2^53, far above the number
    of entries a [Map] can hold, so the counter is an unbounded natural [N].
    [console.log] and [console.error] have no effect on the state or on the
    replies and are left out. *)

From Stdlib Require Import Ascii String DecimalString DecimalN.
From stdpp Require Import gmap strings list fin_maps.

Open Scope string_scope.

(** ** Data model *)

Module User.
(** The fields of a discord.js [User] that the program reads. *)
Record t := mk { id : string; username : string; tag : string; bot : bool }.
End User.

Module Specs.
(** [{ ram, disk, cpu }], each the value of an integer option. *)
Record t := mk { ram : Z; disk : Z; cpu : Z }.
End Specs.

(** The three values the [status] field takes: ['offline'], ['online'],
    ['rebooting']. *)
Inductive Status := offline | online | rebooting.

Module Vps.
Record t := mk {
  id : string;
  owner : User.t;
  specs : Specs.t;
  status : Status;
  tmateSession : string;
}.

(** The assignment [vps.status = s]. *)
Definition with_status (s : Status) (v : t) : t :=
  mk (id v) (owner v) (specs v) s (tmateSession v).
End Vps.

(** A reference to a record object: its index in the store. *)
Abbreviation ref := nat.

(** A pending [setTimeout] callback: the time at which it is due, in
    milliseconds, and the record object its closure captured. *)
Definition Timer : Type := N * ref.

Record State := mkState {
  objects : list Vps.t;          (* the record objects, by reference *)
  vpsDatabase : gmap string ref; (* this.vpsDatabase *)
  vpsIdCounter : N;              (* this.vpsIdCounter *)
  clock : N;                     (* the current time of the event loop, ms *)
  timers : list Timer;           (* pending callbacks, oldest first *)
}.

(** [new VpsManager()] in a fresh event loop. *)
Definition initial : State := mkState [] ∅ 1000 0 [].

(** What [createLxc] and [performAction] return:
    [{ success: false, message }] or [{ success: true, vps }]. *)
Inductive Result :=
  | Failure (message : string)
  | Success (vps : ref).

(** ** The manager *)

(** [getUserVps(userId)]: [undefined] is [None]. *)
Definition getUserVps (st : State) (userId : string) : option ref :=
  vpsDatabase st !! userId.

(** The record object behind a reference. *)
Definition deref (st : State) (r : ref) : option Vps.t := objects st !! r.

(** The record of an owner, if any. *)
Definition record_of (st : State) (userId : string) : option Vps.t :=
  getUserVps st userId ≫= deref st.

(** A number in a template literal: its decimal digits. *)
Definition Number_toString (n : N) : string :=
  NilEmpty.string_of_uint (N.to_uint n).

(** [`LXC-${n}`] *)
Definition vpsId_of (n : N) : string := "LXC-" +:+ Number_toString n.

(** [`ssh ${username}-${vpsId}@tmate.kexson.host`] *)
Definition tmate_of (username vpsId : string) : string :=
  "ssh " +:+ username +:+ "-" +:+ vpsId +:+ "@tmate.kexson.host".

Definition createLxc (st : State) (user : User.t) (specs : Specs.t)
  : State * Result :=
  match getUserVps st (User.id user) with
  | Some _ => (st, Failure "User already has a VPS.")
  | None =>
      let vpsId := vpsId_of (vpsIdCounter st) in
      let newVps :=
        Vps.mk vpsId user specs offline (tmate_of (User.username user) vpsId) in
      let r := length (objects st) in
      (mkState (objects st ++ [newVps])%list
               (<[User.id user := r]> (vpsDatabase st))
               (vpsIdCounter st + 1)%N
               (clock st)
               (timers st),
       Success r)
  end.

(** The write [vps.status = s] through a reference. *)
Definition set_status (r : ref) (s : Status) (h : list Vps.t) : list Vps.t :=
  alter (Vps.with_status s) r h.

(** The delay given to [setTimeout], in milliseconds. *)
Definition REBOOT_DELAY : N := 5000.

Definition performAction (st : State) (userId : string) (action : string)
  : State * Result :=
  match getUserVps st userId with
  | None => (st, Failure "VPS not found.")
  | Some vps =>
      let st' :=
        if String.eqb action "start" then
          mkState (set_status vps online (objects st)) (vpsDatabase st)
                  (vpsIdCounter st) (clock st) (timers st)
        else if String.eqb action "shutdown" then
          mkState (set_status vps offline (objects st)) (vpsDatabase st)
                  (vpsIdCounter st) (clock st) (timers st)
        else if String.eqb action "reboot" then
          mkState (set_status vps rebooting (objects st)) (vpsDatabase st)
                  (vpsIdCounter st) (clock st)
                  (timers st ++ [((clock st + REBOOT_DELAY)%N, vps)])%list
        else st in
      (st', Success vps)
  end.

(** ** The event loop's timers *)

(** Runs, oldest first, the callbacks that are due at [now]; each one is
    [() => { vps.status = 'online'; }] for the object it captured.  Returns
    the store and the callbacks still pending. *)
Fixpoint fire_due (now : N) (ts : list Timer) (h : list Vps.t)
  : list Vps.t * list Timer :=
  match ts with
  | [] => (h, [])
  | (due, r) :: ts' =>
      if (due <=? now)%N then fire_due now ts' (set_status r online h)
      else
        let '(h', rest) := fire_due now ts' h in
        (h', (due, r) :: rest)
  end.

(** [dt] milliseconds pass and the callbacks that became due run. *)
Definition elapse (st : State) (dt : N) : State :=
  let now := (clock st + dt)%N in
  let '(h, rest) := fire_due now (timers st) (objects st) in
  mkState h (vpsDatabase st) (vpsIdCounter st) now rest.

(** ** Runs of the manager *)

Inductive Event :=
  | Create (user : User.t) (specs : Specs.t)
  | Action (userId : string) (action : string)
  | Elapse (dt : N).

Definition exec (st : State) (ev : Event) : State :=
  match ev with
  | Create u s => (createLxc st u s).1
  | Action uid a => (performAction st uid a).1
  | Elapse dt => elapse st dt
  end.

Definition run (st : State) (evs : list Event) : State := foldl exec st evs.

Definition reachable (st : State) : Prop := ∃ evs, st = run initial evs.

(** ** The command router *)

(** A line feed, [\n] in the source's literals. *)
Definition nl : string := String (Ascii.ascii_of_nat 10) EmptyString.

(** An integer in a template literal. *)
Definition Integer_toString (z : Z) : string :=
  NilEmpty.string_of_int (Z.to_int z).

(** The part of an [EmbedBuilder] the program fills in; [setTimestamp()]
    stamps the wall-clock time and is left out. *)
Record Embed := mkEmbed {
  color : string;
  title : string;
  description : string;
  fields : list (string * string * bool); (* name, value, inline *)
  footer : string;
}.

(** The calls the handlers make on the messaging transport, in the order
    they are issued. *)
Inductive Effect :=
  | Reply (content : string) (ephemeral : bool) (* interaction.reply *)
  | DeferReply                                  (* interaction.deferReply *)
  | EditReply (content : string)                (* interaction.editReply *)
  | SendEmbed (to : User.t) (e : Embed)         (* user.send({ embeds }) *)
  | Send (to : User.t) (content : string).      (* user.send(text) *)

(** An inbound interaction: what the handler reads from it, and how the
    transport answers the calls whose outcome decides what the program does
    next: [true] when the promise resolves, [false] when it rejects.  The
    two outcomes of [editReply] and the one of [reply] go by the order of
    the calls: [deploy] calls [editReply] once or twice, and a command that
    calls [reply] does so at most once before the handler's own [catch]. *)
Record Interaction := mkInteraction {
  isChatInputCommand : bool;
  commandName : string;
  user : User.t;          (* interaction.user *)
  getUser_user : User.t;  (* options.getUser('user') *)
  getInteger_ram : Z;     (* options.getInteger('ram') *)
  getInteger_disk : Z;    (* options.getInteger('disk') *)
  getInteger_cpu : Z;     (* options.getInteger('cpu') *)
  deferReply_ok : bool;       (* interaction.deferReply() *)
  send_ok : bool;             (* user.send(...) *)
  editReply_ok : bool;        (* the first interaction.editReply(...) *)
  editReply_retry_ok : bool;  (* the second interaction.editReply(...) *)
  reply_ok : bool;            (* interaction.reply(...) of the command *)
}.

(** How an [execute] ends: it returns, or an exception escapes it. *)
Inductive Completion := Returned | Threw.

Definition dmEmbed (vps : Vps.t) : Embed :=
  mkEmbed "#00FF00"
    "🎉 Your LXC VPS is Ready!"
    "Your new container has been created and is ready for use."
    [("🖥️ VPS Details",
      "**ID:** " +:+ Vps.id vps +:+ nl +:+
      "**RAM:** " +:+ Integer_toString (Specs.ram (Vps.specs vps)) +:+ "MB" +:+ nl +:+
      "**Disk:** " +:+ Integer_toString (Specs.disk (Vps.specs vps)) +:+ "GB" +:+ nl +:+
      "**CPU:** " +:+ Integer_toString (Specs.cpu (Vps.specs vps)) +:+ " Cores",
      false);
     ("🔑 SSH Access (tmate)",
      "You can connect instantly using the command below in your terminal:"
        +:+ nl +:+ "```" +:+ Vps.tmateSession vps +:+ "```",
      false)]
    "Manage your VPS by sending me commands in this DM! Type !help".

(** The two texts [deploy] edits its reply to. *)
Definition deploy_success_text (vps : Vps.t) (user : User.t) : string :=
  "✅ Successfully deployed LXC VPS `" +:+ Vps.id vps +:+ "` for **"
    +:+ User.tag user +:+ "**. They have been notified via DM.".

Definition deploy_degraded_text (vps : Vps.t) (user : User.t) : string :=
  "✅ VPS `" +:+ Vps.id vps +:+ "` deployed for **" +:+ User.tag user
    +:+ "**, but I could not send them a DM. Please tell them to check their privacy settings.".

(** [execute] of the [deploy] command.  A rejected [deferReply] escapes at
    once.  The [editReply] that reports the error of [createLxc] is
    returned, so its rejection escapes too.  The direct message and the
    success [editReply] are inside the [try]: when either rejects, the
    [catch] block edits the reply to the degraded text, and a rejection of
    that call escapes. *)
Definition deploy_execute (st : State) (i : Interaction)
  : State * list Effect * Completion :=
  let user := getUser_user i in
  let specs :=
    Specs.mk (getInteger_ram i) (getInteger_disk i) (getInteger_cpu i) in
  if negb (deferReply_ok i) then (st, [DeferReply], Threw)
  else
    match createLxc st user specs with
    | (st', Failure message) =>
        (st', [DeferReply; EditReply ("❌ Error: " +:+ message)],
         if editReply_ok i then Returned else Threw)
    | (st', Success r) =>
        match deref st' r with
        | None => (st', [DeferReply], Threw)
        | Some vps =>
            if send_ok i then
              if editReply_ok i then
                (st',
                 [DeferReply; SendEmbed user (dmEmbed vps);
                  EditReply (deploy_success_text vps user)],
                 Returned)
              else
                (st',
                 [DeferReply; SendEmbed user (dmEmbed vps);
                  EditReply (deploy_success_text vps user);
                  EditReply (deploy_degraded_text vps user)],
                 if editReply_retry_ok i then Returned else Threw)
            else
              (st',
               [DeferReply; SendEmbed user (dmEmbed vps);
                EditReply (deploy_degraded_text vps user)],
               if editReply_ok i then Returned else Threw)
        end
    end.

(** [execute] of the [manage] command.  Both calls of [interaction.reply]
    are outside the [try]: a rejection escapes, and then the direct message
    is not sent.  A rejected [user.send] is caught and logged. *)
Definition manage_execute (st : State) (i : Interaction)
  : State * list Effect * Completion :=
  match getUserVps st (User.id (user i)) with
  | None =>
      (st,
       [Reply "You do not have a VPS deployed. Please contact an administrator." true],
       if reply_ok i then Returned else Threw)
  | Some r =>
      match deref st r with
      | None =>
          (st,
           [Reply "✅ Please check your Direct Messages for VPS management instructions." true],
           Threw)
      | Some vps =>
          if reply_ok i then
            (st,
             [Reply "✅ Please check your Direct Messages for VPS management instructions." true;
              Send (user i)
                ("Hello! You can manage your VPS (`" +:+ Vps.id vps
                   +:+ "`) by sending me commands in this DM. Type `!help` to see what you can do.")],
             Returned)
          else
            (st,
             [Reply "✅ Please check your Direct Messages for VPS management instructions." true],
             Threw)
      end
  end.

Inductive Category := admin | user_category.

Record Command := mkCommand {
  name : string;
  category : Category;
  execute : State → Interaction → State * list Effect * Completion;
}.

Definition deploy_command : Command := mkCommand "deploy" admin deploy_execute.
Definition manage_command : Command :=
  mkCommand "manage" user_category manage_execute.

Definition commands : list Command := [deploy_command; manage_command].

(** An inbound message. *)
Record Message := mkMessage {
  author : User.t;
  channel_is_DM : bool; (* message.channel.type === ChannelType.DM *)
  content : string;
}.

Definition is_space (c : Ascii.ascii) : bool := Ascii.eqb c " "%char.

(** [s.split(/ +/)]: the pieces of [s] between runs of spaces.  [acc] is the
    piece being read, reversed; [skipping] says the last character was a
    space. *)
Fixpoint split_spaces_from (acc : list Ascii.ascii) (skipping : bool) (s : string)
  : list string :=
  match s with
  | EmptyString => [string_of_list_ascii (rev acc)]
  | String c s' =>
      if is_space c then
        if skipping then split_spaces_from acc true s'
        else string_of_list_ascii (rev acc) :: split_spaces_from [] true s'
      else split_spaces_from (c :: acc) false s'
  end.

Definition split_spaces (s : string) : list string :=
  split_spaces_from [] false s.

(** [s.startsWith('!')] *)
Definition startsWith_bang (s : string) : bool :=
  match s with
  | String c _ => Ascii.eqb c "!"%char
  | EmptyString => false
  end.

Section Router.

(** [process.env.ADMIN_ID] *)
Variable ADMIN_ID : string.

(** The built-ins [String.prototype.trim] and
    [String.prototype.toLowerCase]. *)
Variable trim : string → string.
Variable toLowerCase : string → string.

(** The handler of [interactionCreate]. *)
Definition interactionCreate (st : State) (i : Interaction)
  : State * list Effect :=
  if negb (isChatInputCommand i) then (st, [])
  else
    match List.find (λ cmd, String.eqb (name cmd) (commandName i)) commands with
    | None => (st, [])
    | Some command =>
        if match category command with admin => true | _ => false end
           && negb (String.eqb (User.id (user i)) ADMIN_ID)
        then (st, [Reply "❌ You are not an admin." true])
        else
          match execute command st i with
          | (st', out, Returned) => (st', out)
          | (st', out, Threw) =>
              (st',
               (out ++ [Reply "There was an error while executing this command!" true])%list)
          end
    end.

(** [args.shift().toLowerCase()] for [args = content.trim().split(/ +/)]. *)
Definition commandName_of (content : string) : string :=
  toLowerCase (hd "" (split_spaces (trim content))).

Definition status_upper (s : Status) : string :=
  match s with
  | offline => "OFFLINE"
  | online => "ONLINE"
  | rebooting => "REBOOTING"
  end.

(** The handler of [messageCreate].  [reply] catches a failed
    [message.author.send], so the call is all there is to it. *)
Definition messageCreate (st : State) (message : Message)
  : State * list Effect :=
  if User.bot (author message) || negb (channel_is_DM message) then (st, [])
  else
    match getUserVps st (User.id (author message)) with
    | None => (st, [])
    | Some r =>
        let commandName := commandName_of (content message) in
        if negb (startsWith_bang commandName) then (st, [])
        else
          match deref st r with
          | None => (st, [])
          | Some vps =>
              let reply (text : string) := [Send (author message) text] in
              if String.eqb commandName "!help" then
                (st,
                 reply ("**Available Commands:**" +:+ nl
                   +:+ "`!status` - Check VPS status." +:+ nl
                   +:+ "`!reboot` - Reboot your VPS." +:+ nl
                   +:+ "`!shutdown` - Shutdown your VPS." +:+ nl
                   +:+ "`!start` - Start your VPS." +:+ nl
                   +:+ "`!ssh` - Show your SSH access info."))
              else if String.eqb commandName "!status" then
                (st,
                 reply ("Your VPS (`" +:+ Vps.id vps +:+ "`) status is: **"
                   +:+ status_upper (Vps.status vps) +:+ "**"))
              else if String.eqb commandName "!reboot" then
                ((performAction st (User.id (author message)) "reboot").1,
                 reply ("🔄 Your VPS (`" +:+ Vps.id vps +:+ "`) is now rebooting."))
              else if String.eqb commandName "!shutdown" then
                ((performAction st (User.id (author message)) "shutdown").1,
                 reply ("🛑 Your VPS (`" +:+ Vps.id vps +:+ "`) has been shut down."))
              else if String.eqb commandName "!start" then
                ((performAction st (User.id (author message)) "start").1,
                 reply ("▶️ Your VPS (`" +:+ Vps.id vps +:+ "`) has been started."))
              else if String.eqb commandName "!ssh" then
                (st,
                 reply ("🔑 SSH Access for `" +:+ Vps.id vps +:+ "`:" +:+ nl
                   +:+ "```" +:+ Vps.tmateSession vps +:+ "```"))
              else
                (st,
                 reply "Unknown command. Type `!help` to see available commands.")
          end
    end.

End Router.

(** [trim] and [toLowerCase] on text made of ASCII characters, where they
    agree with the built-ins: white space is U+0009 to U+000D and U+0020,
    and the letters A to Z are the ones with a lower case. *)
Definition is_ascii_space (c : Ascii.ascii) : bool :=
  let n := Ascii.nat_of_ascii c in
  ((9 <=? n)%nat && (n <=? 13)%nat) || (n =? 32)%nat.

Fixpoint trim_start (s : string) : string :=
  match s with
  | String c s' => if is_ascii_space c then trim_start s' else s
  | EmptyString => EmptyString
  end.

Definition ascii_trim (s : string) : string :=
  let front := trim_start s in
  string_of_list_ascii
    (rev (list_ascii_of_string
            (trim_start (string_of_list_ascii (rev (list_ascii_of_string front)))))).

Definition ascii_lower (c : Ascii.ascii) : Ascii.ascii :=
  let n := Ascii.nat_of_ascii c in
  if (65 <=? n)%nat && (n <=? 90)%nat then Ascii.ascii_of_nat (n + 32) else c.

Fixpoint ascii_toLowerCase (s : string) : string :=
  match s with
  | String c s' => String (ascii_lower c) (ascii_toLowerCase s')
  | EmptyString => EmptyString
  end.

(** * Vocabulary of the statements *)

(** ** Decimal digits *)

Definition is_digit (c : Ascii.ascii) : bool :=
  let n := Ascii.nat_of_ascii c in (48 <=? n)%nat && (n <=? 57)%nat.

Fixpoint all_digits (s : string) : bool :=
  match s with
  | EmptyString => true
  | String c s' => is_digit c && all_digits s'
  end.

(** ** Invariants *)

(** A record with its status blanked: everything [vps.status = s] leaves
    alone. *)
Definition fixed_part (v : Vps.t) : Vps.t := Vps.with_status offline v.

(** The counter is 1000 plus the number of records made; the map sends an
    owner's id to that owner's record; every record is the one the map holds
    for its owner, carries the id made from the counter value at its creation
    and the credential made from its owner's name and that id. *)
Definition wf (st : State) : Prop :=
  vpsIdCounter st = (1000 + N.of_nat (length (objects st)))%N
  ∧ (∀ k r, vpsDatabase st !! k = Some r →
       ∃ v, objects st !! r = Some v ∧ User.id (Vps.owner v) = k)
  ∧ (∀ r v, objects st !! r = Some v →
       vpsDatabase st !! User.id (Vps.owner v) = Some r
       ∧ Vps.id v = vpsId_of (1000 + N.of_nat r)
       ∧ Vps.tmateSession v
         = tmate_of (User.username (Vps.owner v)) (Vps.id v)).

(** What holds of a record from the moment [reboot] returned until its
    callback ran: it is [online], or a callback for it is pending and due
    no later than [deadline]. *)
Definition rebooted (userId : string) (r : ref) (v : Vps.t) (deadline : N)
  (st : State) : Prop :=
  wf st
  ∧ vpsDatabase st !! userId = Some r
  ∧ ∃ v', objects st !! r = Some v' ∧ fixed_part v' = fixed_part v
      ∧ (Vps.status v' = online
         ∨ ∃ due, (due, r) ∈ timers st ∧ (clock st < due ≤ deadline)%N).

(** ** Runs *)

(** No event of the run is an action of [userId]. *)
Definition quiet (userId : string) (evs : list Event) : bool :=
  forallb (λ ev, match ev with
                 | Action uid _ => negb (String.eqb uid userId)
                 | _ => true
                 end) evs.

(** The time that passes during a run, in milliseconds. *)
Fixpoint elapsed (evs : list Event) : N :=
  match evs with
  | [] => 0
  | Elapse dt :: evs' => dt + elapsed evs'
  | _ :: evs' => elapsed evs'
  end.

(** The six commands of the direct-message channel. *)
Definition recognized : list string :=
  ["!help"; "!status"; "!reboot"; "!shutdown"; "!start"; "!ssh"].

(** ** Sample data *)

Definition alice : User.t := User.mk "111" "alice" "alice#0001" false.

Definition bob : User.t := User.mk "222" "bob" "bob#0002" false.

(** [alice] after a change of user name: the same id. *)
Definition alice_renamed : User.t :=
  User.mk "111" "alice_new" "alice_new#0001" false.

(** The administrator, for [ADMIN_ID = "999"]. *)
Definition root : User.t := User.mk "999" "root" "root#0000" false.

Definition small : Specs.t := Specs.mk 512 10 1.

(** The registry after [alice] was given a record. *)
Definition st_alice : State := run initial [Create alice small].

(** The record [alice] was given, as created. *)
Definition alice_vps : Vps.t :=
  Vps.mk "LXC-1000" alice small offline "ssh alice-LXC-1000@tmate.kexson.host".

(** The administrator deploys for [alice] with the given integers. *)
Definition deploy_for_alice (ram disk cpu : Z) : Interaction :=
  mkInteraction true "deploy" root alice ram disk cpu true true true true true.

(** ** The event loop *)

(** What the event loop delivers: an interaction, a message, or the
    passing of [dt] milliseconds. *)
Inductive Inbound :=
  | OnInteraction (i : Interaction)
  | OnMessage (m : Message)
  | Tick (dt : N).

(** The state a handler leaves.  Every handler reads and writes the manager
    in one synchronous stretch ([deploy] after its first [await], the others
    before any), so handlers act on the state one after the other. *)
Definition handle (ADMIN_ID : string) (trim toLowerCase : string → string)
  (st : State) (inb : Inbound) : State :=
  match inb with
  | OnInteraction i => (interactionCreate ADMIN_ID st i).1
  | OnMessage m => (messageCreate trim toLowerCase st m).1
  | Tick dt => elapse st dt
  end.

Definition serve (ADMIN_ID : string) (trim toLowerCase : string → string)
  (st : State) (ins : list Inbound) : State :=
  foldl (handle ADMIN_ID trim toLowerCase) st ins.

(** ** More vocabulary *)

(** [s] has no space character. *)
Fixpoint no_space (s : string) : bool :=
  match s with
  | EmptyString => true
  | String c s' => negb (is_space c) && no_space s'
  end.

(** Some callback of [ts] for the object [j] is due at [now]. *)
Definition due_for (now : N) (j : ref) (ts : list Timer) : bool :=
  existsb (λ t, (t.1 <=? now)%N && (t.2 =? j)%nat) ts.

(** No callback is pending for the object [r]. *)
Definition no_callback_for (r : ref) (st : State) : Prop :=
  ∀ due, (due, r) ∉ timers st.

(** Every pending callback holds an object of the store. *)
Definition timers_valid (st : State) : Prop :=
  ∀ due r, (due, r) ∈ timers st → (r < length (objects st))%nat.

(** The object [r] of owner [userId] holds [w], and no callback for it is
    due before [deadline]. *)
Definition held (userId : string) (r : ref) (w : Vps.t) (deadline : N)
  (st : State) : Prop :=
  wf st
  ∧ vpsDatabase st !! userId = Some r
  ∧ objects st !! r = Some w
  ∧ ∀ d, (d, r) ∈ timers st → (deadline ≤ d)%N.

(** [alice] and [bob] both have a record; [bob]'s is rebooting since
    time 0. *)
Definition st_two : State :=
  run initial [Create alice small; Create bob small; Action "222" "reboot"].

(** * Properties *)

(** Comparisons of strings stay folded under [simpl]. *)
#[local] Arguments String.eqb : simpl never.

(** ** Decimal numerals and the derived strings *)

Lemma string_of_uint_digits d : all_digits (NilEmpty.string_of_uint d) = true.
Proof. induction d; simpl; auto. Qed.

Lemma Number_toString_digits n : all_digits (Number_toString n) = true.
Proof. apply string_of_uint_digits. Qed.

Lemma Number_toString_inj n m :
  Number_toString n = Number_toString m → n = m.
Proof.
  unfold Number_toString. intros E.
  apply Unsigned.to_uint_inj.
  assert (Some (N.to_uint n) = Some (N.to_uint m)) as S by
    (rewrite <- !NilEmpty.usu; now rewrite E).
  now injection S.
Qed.

(** [String.append] does not unfold under [simpl]; its two equations. *)
Lemma append_nil_l (s : string) : "" +:+ s = s.
Proof. reflexivity. Qed.

Lemma append_cons (c : Ascii.ascii) (a b : string) :
  String c a +:+ b = String c (a +:+ b).
Proof. reflexivity. Qed.

Ltac app_norm := rewrite ?append_cons, ?append_nil_l.
Ltac app_norm_in H := rewrite ?append_cons, ?append_nil_l in H.

Lemma vpsId_of_inj n m : vpsId_of n = vpsId_of m → n = m.
Proof.
  unfold vpsId_of. intros E. app_norm_in E. injection E as E.
  now apply Number_toString_inj.
Qed.

Lemma append_assoc (a b c : string) : (a +:+ b) +:+ c = a +:+ (b +:+ c).
Proof. induction a; app_norm; congruence. Qed.

Lemma length_append (a b : string) :
  String.length (a +:+ b) = String.length a + String.length b.
Proof. induction a; app_norm; simpl; congruence. Qed.

Lemma append_inv_tail (a b c : string) : a +:+ c = b +:+ c → a = b.
Proof.
  intros E.
  assert (String.length a = String.length b) as L.
  { apply (f_equal String.length) in E. rewrite !length_append in E. lia. }
  revert b E L. induction a as [|x a IH]; intros [|y b] E L; simpl in L;
    try discriminate; [reflexivity|].
  app_norm_in E. injection E as -> E. f_equal. apply IH; [assumption|lia].
Qed.

(** Two equal strings that each end in a run of digits preceded by a
    character that is not a digit agree on the run. *)
Lemma digit_suffix_unique_le (p : string) :
  ∀ (q u v : string) (c c' : Ascii.ascii),
    is_digit c = false → is_digit c' = false →
    all_digits u = true → all_digits v = true →
    (String.length p ≤ String.length q)%nat →
    p +:+ String c u = q +:+ String c' v → u = v.
Proof.
  induction p as [|k p IH]; intros q u v c c' Hc Hc' Hu Hv L E.
  - destruct q as [|k' q]; app_norm_in E.
    + now injection E.
    + injection E as -> E. exfalso.
      clear L. revert u Hu E. induction q as [|z q IHq]; intros u Hu E.
      * app_norm_in E. subst u. simpl in Hu. rewrite Hc' in Hu. discriminate.
      * destruct u as [|w u]; [discriminate|]. simpl in Hu.
        app_norm_in E. injection E as -> E.
        apply andb_prop in Hu as [_ Hu]. eauto.
  - destruct q as [|k' q]; simpl in L; [lia|].
    app_norm_in E. injection E as -> E. apply (IH q u v c c'); auto. lia.
Qed.

Lemma digit_suffix_unique (a b d e : string) (x y : Ascii.ascii) :
  is_digit x = false → is_digit y = false →
  all_digits d = true → all_digits e = true →
  a +:+ String x d = b +:+ String y e → d = e.
Proof.
  intros Hx Hy Hd He E.
  destruct (le_ge_dec (String.length a) (String.length b)).
  - apply (digit_suffix_unique_le a b d e x y); auto.
  - symmetry. apply (digit_suffix_unique_le b a e d y x); auto.
Qed.

Lemma tmate_of_shape (u : string) (n : N) :
  tmate_of u (vpsId_of n)
  = (("ssh " +:+ u +:+ "-LXC") +:+ String "-" (Number_toString n))
      +:+ "@tmate.kexson.host".
Proof. unfold tmate_of, vpsId_of. rewrite !append_assoc. reflexivity. Qed.

Lemma tmate_of_inj_counter (u1 u2 : string) (n m : N) :
  tmate_of u1 (vpsId_of n) = tmate_of u2 (vpsId_of m) → n = m.
Proof.
  rewrite !tmate_of_shape. intros E.
  apply append_inv_tail in E.
  apply digit_suffix_unique in E; auto using Number_toString_digits.
  now apply Number_toString_inj.
Qed.

(** ** The store: what a status write leaves alone *)

Lemma fixed_part_with_status s v :
  fixed_part (Vps.with_status s v) = fixed_part v.
Proof. reflexivity. Qed.

Lemma fixed_part_eq v v' :
  fixed_part v' = fixed_part v →
  Vps.id v' = Vps.id v ∧ Vps.owner v' = Vps.owner v
  ∧ Vps.specs v' = Vps.specs v ∧ Vps.tmateSession v' = Vps.tmateSession v.
Proof.
  destruct v, v'. unfold fixed_part, Vps.with_status. simpl.
  intros E. injection E as -> -> -> ->. auto.
Qed.

Lemma set_status_lookup r s (h : list Vps.t) j :
  set_status r s h !! j
  = if decide (r = j) then Vps.with_status s <$> h !! r else h !! j.
Proof. unfold set_status. apply list_lookup_alter. Qed.

Lemma set_status_fixed r s (h : list Vps.t) :
  fixed_part <$> set_status r s h = fixed_part <$> h.
Proof.
  apply list_eq. intros j. rewrite !list_lookup_fmap, set_status_lookup.
  destruct (decide (r = j)) as [->|]; [|reflexivity].
  destruct (h !! j); reflexivity.
Qed.

Lemma set_status_idemp r s (h : list Vps.t) :
  set_status r s (set_status r s h) = set_status r s h.
Proof.
  apply list_eq. intros j. rewrite !set_status_lookup.
  destruct (decide (r = j)) as [->|]; [|reflexivity].
  rewrite decide_True by reflexivity. destruct (h !! j); reflexivity.
Qed.

(** The write, spelled out: the object at [r] is replaced by the record
    with the same id, owner, specs and credential and the status [s]. *)
Lemma set_status_insert r s (h : list Vps.t) v :
  h !! r = Some v →
  set_status r s h
  = <[r := Vps.mk (Vps.id v) (Vps.owner v) (Vps.specs v) s (Vps.tmateSession v)]> h.
Proof.
  intros H. apply list_eq. intros j. rewrite set_status_lookup.
  destruct (decide (r = j)) as [<-|Hne].
  - rewrite H, list_lookup_insert_eq by (now apply lookup_lt_Some in H).
    reflexivity.
  - now rewrite list_lookup_insert_ne.
Qed.

Lemma fire_due_fixed now ts : ∀ h : list Vps.t,
  fixed_part <$> (fire_due now ts h).1 = fixed_part <$> h.
Proof.
  induction ts as [|[due r] ts IH]; intros h; simpl; [reflexivity|].
  destruct (due <=? now)%N.
  - rewrite IH. apply set_status_fixed.
  - specialize (IH h). destruct (fire_due now ts h). exact IH.
Qed.

(** A callback only ever writes ['online']. *)
Lemma fire_due_lookup now ts : ∀ (h : list Vps.t) j,
  (fire_due now ts h).1 !! j = h !! j
  ∨ (fire_due now ts h).1 !! j = Vps.with_status online <$> h !! j.
Proof.
  induction ts as [|[due r] ts IH]; intros h j; simpl; [now left|].
  destruct (due <=? now)%N.
  - destruct (IH (set_status r online h) j) as [E|E]; rewrite E;
      rewrite set_status_lookup; destruct (decide (r = j)) as [->|]; auto.
    right. destruct (h !! j); reflexivity.
  - specialize (IH h j). destruct (fire_due now ts h). exact IH.
Qed.

(** A callback that is due has run. *)
Lemma fire_due_online now ts : ∀ (h : list Vps.t) due r,
  (due, r) ∈ ts → (due ≤ now)%N →
  (fire_due now ts h).1 !! r = Vps.with_status online <$> h !! r.
Proof.
  induction ts as [|[d' r'] ts IH]; intros h due r Hin Hle; simpl.
  - inversion Hin.
  - apply elem_of_cons in Hin as [Heq|Hin].
    + injection Heq as <- <-.
      rewrite (proj2 (N.leb_le due now) Hle).
      destruct (fire_due_lookup now ts (set_status r online h) r) as [E|E];
        rewrite E, set_status_lookup, decide_True by reflexivity;
        destruct (h !! r); reflexivity.
    + destruct (d' <=? now)%N.
      * rewrite (IH _ due r Hin Hle), set_status_lookup.
        destruct (decide (r' = r)) as [->|]; [|reflexivity].
        destruct (h !! r); reflexivity.
      * specialize (IH h due r Hin Hle). destruct (fire_due now ts h). exact IH.
Qed.

(** The callbacks left pending are those not yet due. *)
Lemma fire_due_pending now ts : ∀ (h : list Vps.t) due r,
  (due, r) ∈ (fire_due now ts h).2 ↔ (due, r) ∈ ts ∧ (now < due)%N.
Proof.
  induction ts as [|[d' r'] ts IH]; intros h due r; simpl.
  - split; [intros H; inversion H|intros [H _]; inversion H].
  - destruct (N.leb_spec d' now) as [Hle|Hlt].
    + rewrite IH, elem_of_cons. split.
      * intros [Hin Hnow]. split; [now right|assumption].
      * intros [[Heq|Hin] Hnow]; [|auto]. inversion Heq; subst. lia.
    + specialize (IH h due r). destruct (fire_due now ts h) as [h' rest].
      simpl in *. rewrite !elem_of_cons, IH. split.
      * intros [Heq|[Hin Hnow]]; [|auto]. inversion Heq; subst. auto.
      * intros [[Heq|Hin] Hnow]; [now left|now right].
Qed.

(** ** What one event does to the store *)

Lemma createLxc_exists st user specs r :
  getUserVps st (User.id user) = Some r →
  createLxc st user specs = (st, Failure "User already has a VPS.").
Proof. unfold createLxc. now intros ->. Qed.

Lemma exec_fixed st ev :
  fixed_part <$> objects st `prefix_of` fixed_part <$> objects (exec st ev).
Proof.
  destruct ev as [u s|uid a|dt]; simpl.
  - unfold createLxc. destruct (getUserVps st (User.id u)); simpl; [reflexivity|].
    rewrite fmap_app. now apply prefix_app_r.
  - unfold performAction. destruct (getUserVps st uid); simpl; [|reflexivity].
    repeat case_match; simpl; rewrite ?set_status_fixed; reflexivity.
  - unfold elapse. pose proof (fire_due_fixed (clock st + dt) (timers st) (objects st)) as E.
    destruct (fire_due (clock st + dt) (timers st) (objects st)). simpl in *.
    now rewrite E.
Qed.

Lemma run_fixed evs : ∀ st,
  fixed_part <$> objects st `prefix_of` fixed_part <$> objects (run st evs).
Proof.
  induction evs as [|ev evs IH]; intros st; simpl; [reflexivity|].
  etrans; [apply exec_fixed|apply IH].
Qed.

Lemma fixed_prefix_lookup (h h' : list Vps.t) r v :
  fixed_part <$> h `prefix_of` fixed_part <$> h' →
  h !! r = Some v →
  ∃ v', h' !! r = Some v' ∧ fixed_part v' = fixed_part v.
Proof.
  intros P Hr.
  assert ((fixed_part <$> h') !! r = Some (fixed_part v)) as E.
  { eapply prefix_lookup_Some; [|exact P]. now rewrite list_lookup_fmap, Hr. }
  rewrite list_lookup_fmap in E. destruct (h' !! r) as [v'|]; [|discriminate].
  exists v'. split; [reflexivity|]. simpl in E. congruence.
Qed.

(** ** The invariant of the registry *)

Lemma wf_initial : wf initial.
Proof.
  split; [reflexivity|split].
  - intros k r H. simpl in H. rewrite lookup_empty in H. discriminate.
  - intros r v H. simpl in H. rewrite lookup_nil in H. discriminate.
Qed.

Lemma wf_status_only st st' :
  fixed_part <$> objects st' = fixed_part <$> objects st →
  vpsDatabase st' = vpsDatabase st →
  vpsIdCounter st' = vpsIdCounter st →
  wf st → wf st'.
Proof.
  intros F D C (Hc & Hdb & Hobj).
  assert (length (objects st') = length (objects st)) as L.
  { apply (f_equal length) in F. now rewrite !length_fmap in F. }
  split; [|split].
  - now rewrite C, L.
  - intros k r Hk. rewrite D in Hk. destruct (Hdb k r Hk) as (v & Hv & Ho).
    destruct (fixed_prefix_lookup (objects st) (objects st') r v) as (v' & Hv' & E);
      [now rewrite F|assumption|].
    exists v'. split; [assumption|].
    apply fixed_part_eq in E as (_ & -> & _). assumption.
  - intros r v' Hv'.
    destruct (fixed_prefix_lookup (objects st') (objects st) r v') as (v & Hv & E);
      [now rewrite F|assumption|].
    apply fixed_part_eq in E as (Ei & Eo & _ & Et).
    destruct (Hobj r v Hv) as (H1 & H2 & H3).
    rewrite D, <- Ei, <- Eo, <- Et. auto.
Qed.

Lemma wf_createLxc st user specs : wf st → wf (createLxc st user specs).1.
Proof.
  intros (Hc & Hdb & Hobj). unfold createLxc.
  destruct (getUserVps st (User.id user)) as [r0|] eqn:G; simpl; [unfold wf; auto|].
  unfold getUserVps in G.
  split; [|split]; simpl.
  - rewrite length_app. simpl. lia.
  - intros k r Hk. destruct (decide (User.id user = k)) as [<-|Hne].
    + rewrite lookup_insert_eq in Hk. injection Hk as <-.
      eexists. split; [apply list_lookup_middle; reflexivity|reflexivity].
    + rewrite lookup_insert_ne in Hk by assumption.
      destruct (Hdb k r Hk) as (v & Hv & Ho). exists v. split; [|assumption].
      now apply lookup_app_l_Some.
  - intros r v Hv. apply lookup_app_Some in Hv as [Hv|[Hlen Hv]].
    + destruct (Hobj r v Hv) as (H1 & H2 & H3). split; [|auto].
      rewrite lookup_insert_ne; [assumption|]. intros E. rewrite E in G. congruence.
    + destruct (r - length (objects st)) as [|n] eqn:Er; [|destruct n; discriminate].
      assert (r = length (objects st)) as -> by lia.
      simpl in Hv. injection Hv as <-. simpl.
      rewrite lookup_insert_eq, Hc. auto.
Qed.

Lemma wf_performAction st uid a : wf st → wf (performAction st uid a).1.
Proof.
  intros W. unfold performAction.
  destruct (getUserVps st uid); simpl; [|assumption].
  repeat case_match; try assumption;
    (eapply wf_status_only; [| | |exact W]; simpl; auto using set_status_fixed).
Qed.

Lemma wf_elapse st dt : wf st → wf (elapse st dt).
Proof.
  intros W. unfold elapse.
  pose proof (fire_due_fixed (clock st + dt) (timers st) (objects st)) as E.
  destruct (fire_due (clock st + dt) (timers st) (objects st)).
  eapply wf_status_only; [| | |exact W]; simpl; auto.
Qed.

Create HintDb registry.
#[local] Hint Resolve wf_initial wf_createLxc wf_performAction wf_elapse
  : registry.

Lemma wf_exec st ev : wf st → wf (exec st ev).
Proof. destruct ev; simpl; auto with registry. Qed.

Lemma wf_run evs : ∀ st, wf st → wf (run st evs).
Proof.
  induction evs as [|ev evs IH]; intros st W; simpl; auto using wf_exec.
Qed.

Lemma reachable_wf st : reachable st → wf st.
Proof. intros [evs ->]. apply wf_run, wf_initial. Qed.

Lemma reachable_run st evs : reachable st → reachable (run st evs).
Proof.
  intros [evs0 ->]. exists (evs0 ++ evs)%list. unfold run. now rewrite foldl_app.
Qed.

(** In a well-formed state distinct owners hold distinct objects. *)
Lemma wf_db_inj st k1 k2 r :
  wf st → vpsDatabase st !! k1 = Some r → vpsDatabase st !! k2 = Some r → k1 = k2.
Proof.
  intros (_ & Hdb & _) H1 H2.
  destruct (Hdb k1 r H1) as (v1 & Hv1 & <-).
  destruct (Hdb k2 r H2) as (v2 & Hv2 & <-). congruence.
Qed.

(** [performAction] on an existing record, action by action. *)
Lemma performAction_start st userId r :
  getUserVps st userId = Some r →
  performAction st userId "start"
  = (mkState (set_status r online (objects st)) (vpsDatabase st)
             (vpsIdCounter st) (clock st) (timers st), Success r).
Proof. unfold performAction. now intros ->. Qed.

Lemma performAction_shutdown st userId r :
  getUserVps st userId = Some r →
  performAction st userId "shutdown"
  = (mkState (set_status r offline (objects st)) (vpsDatabase st)
             (vpsIdCounter st) (clock st) (timers st), Success r).
Proof. unfold performAction. now intros ->. Qed.

Lemma performAction_reboot st userId r :
  getUserVps st userId = Some r →
  performAction st userId "reboot"
  = (mkState (set_status r rebooting (objects st)) (vpsDatabase st)
             (vpsIdCounter st) (clock st)
             (timers st ++ [((clock st + REBOOT_DELAY)%N, r)])%list, Success r).
Proof. unfold performAction. now intros ->. Qed.

Lemma st_alice_reachable : reachable st_alice.
Proof. now exists [Create alice small]. Qed.

(** ** The registry *)

(** C1.  In every state the program reaches, no two record objects belong
    to the same owner, and [createLxc] for an owner who has a record fails
    with the already-exists message and returns the state as it was: map,
    records and counter untouched. *)
Theorem createLxc_one_record_per_owner (st : State) :
  reachable st →
  (∀ r1 r2 v1 v2,
     deref st r1 = Some v1 → deref st r2 = Some v2 →
     User.id (Vps.owner v1) = User.id (Vps.owner v2) → r1 = r2)
  ∧ (∀ user specs,
       is_Some (getUserVps st (User.id user)) →
       createLxc st user specs = (st, Failure "User already has a VPS.")).
Proof.
  intros R. apply reachable_wf in R as (_ & _ & Hobj). split.
  - intros r1 r2 v1 v2 H1 H2 E.
    destruct (Hobj r1 v1 H1) as (D1 & _). destruct (Hobj r2 v2 H2) as (D2 & _).
    rewrite E in D1. congruence.
  - intros user specs [r G]. now apply createLxc_exists with r.
Qed.

Lemma createLxc_one_record_per_owner_witness :
  createLxc st_alice alice (Specs.mk 1024 20 2)
  = (st_alice, Failure "User already has a VPS.").
Proof.
  apply (proj2 (createLxc_one_record_per_owner st_alice st_alice_reachable)).
  exists 0. reflexivity.
Defined.

(** C2.  [createLxc] for an owner without a record succeeds; it adds
    exactly one record object, stored under the owner's id, with status
    [offline] and the id ["LXC-"] followed by the counter's value; the
    counter goes up by one; and the ids of any two record objects ever
    made are different. *)
Theorem createLxc_fresh (st : State) (user : User.t) (specs : Specs.t) :
  reachable st →
  getUserVps st (User.id user) = None →
  let vpsId := "LXC-" +:+ Number_toString (vpsIdCounter st) in
  let newVps :=
    Vps.mk vpsId user specs offline (tmate_of (User.username user) vpsId) in
  let st' := (createLxc st user specs).1 in
  (createLxc st user specs).2 = Success (length (objects st))
  ∧ objects st' = (objects st ++ [newVps])%list
  ∧ vpsDatabase st' = <[User.id user := length (objects st)]> (vpsDatabase st)
  ∧ record_of st' (User.id user) = Some newVps
  ∧ vpsIdCounter st' = (vpsIdCounter st + 1)%N
  ∧ (∀ r1 r2 v1 v2,
       deref st' r1 = Some v1 → deref st' r2 = Some v2 →
       r1 ≠ r2 → Vps.id v1 ≠ Vps.id v2).
Proof.
  intros R G vpsId newVps st'.
  assert (wf st') as (_ & _ & Hobj).
  { apply reachable_wf. apply (reachable_run st [Create user specs] R). }
  subst st'. unfold createLxc in *. rewrite G in *. simpl in *.
  repeat split.
  - unfold record_of, getUserVps, deref. simpl. rewrite lookup_insert_eq. simpl.
    now apply list_lookup_middle.
  - intros r1 r2 v1 v2 H1 H2 Hne E.
    destruct (Hobj r1 v1 H1) as (_ & I1 & _).
    destruct (Hobj r2 v2 H2) as (_ & I2 & _).
    rewrite I1, I2 in E. apply vpsId_of_inj in E. lia.
Qed.

Lemma createLxc_fresh_witness :
  (createLxc st_alice bob small).2 = Success 1
  ∧ record_of (createLxc st_alice bob small).1 "222"
    = Some (Vps.mk "LXC-1001" bob small offline "ssh bob-LXC-1001@tmate.kexson.host").
Proof.
  destruct (createLxc_fresh st_alice bob small st_alice_reachable eq_refl)
    as (H1 & _ & _ & H4 & _).
  split; [exact H1|exact H4].
Defined.

(** ** The lifecycle controller *)

(** C3.  On an existing record, whatever its status, [start] makes the
    status [online] and [shutdown] makes it [offline], leaving the id, the
    owner, the specs and the credential as they were, and nothing else in
    the state changes; doing either twice gives the state and the result of
    doing it once; and [start], [shutdown], [start] leaves the record
    [online]. *)
Theorem start_shutdown_unconditional_idempotent
  (st : State) (userId : string) (r : ref) (v : Vps.t) :
  getUserVps st userId = Some r →
  deref st r = Some v →
  let start s := (performAction s userId "start").1 in
  let shutdown s := (performAction s userId "shutdown").1 in
  let v_online :=
    Vps.mk (Vps.id v) (Vps.owner v) (Vps.specs v) online (Vps.tmateSession v) in
  let v_offline :=
    Vps.mk (Vps.id v) (Vps.owner v) (Vps.specs v) offline (Vps.tmateSession v) in
  performAction st userId "start"
  = (mkState (<[r := v_online]> (objects st)) (vpsDatabase st)
             (vpsIdCounter st) (clock st) (timers st), Success r)
  ∧ record_of (start st) userId = Some v_online
  ∧ performAction st userId "shutdown"
    = (mkState (<[r := v_offline]> (objects st)) (vpsDatabase st)
               (vpsIdCounter st) (clock st) (timers st), Success r)
  ∧ record_of (shutdown st) userId = Some v_offline
  ∧ performAction (start st) userId "start" = performAction st userId "start"
  ∧ performAction (shutdown st) userId "shutdown"
    = performAction st userId "shutdown"
  ∧ record_of (start (shutdown (start st))) userId = Some v_online.
Proof.
  intros G D start shutdown v_online v_offline.
  subst start shutdown v_online v_offline.
  repeat match goal with
  | |- context [performAction ?s userId "start"] =>
      rewrite (performAction_start s userId r G); simpl
  | |- context [performAction ?s userId "shutdown"] =>
      rewrite (performAction_shutdown s userId r G); simpl
  end.
  rewrite !set_status_idemp.
  unfold record_of, getUserVps, deref in *. simpl. rewrite G. simpl.
  rewrite !set_status_lookup, !decide_True by reflexivity.
  rewrite !(set_status_insert r _ (objects st) v D).
  rewrite D. repeat split.
Qed.

Lemma start_shutdown_unconditional_idempotent_witness :
  record_of (performAction st_alice "111" "start").1 "111"
  = Some (Vps.mk "LXC-1000" alice small online
            "ssh alice-LXC-1000@tmate.kexson.host").
Proof.
  exact (proj1 (proj2 (start_shutdown_unconditional_idempotent st_alice "111" 0
    alice_vps
    eq_refl eq_refl))).
Defined.

(** C5.  For an owner without a record, [performAction] fails with the
    not-found message whatever the action, and returns the state as it
    was. *)
Theorem performAction_not_found (st : State) (userId action : string) :
  getUserVps st userId = None →
  performAction st userId action = (st, Failure "VPS not found.").
Proof. unfold performAction. now intros ->. Qed.

Lemma performAction_not_found_witness :
  performAction st_alice "222" "reboot" = (st_alice, Failure "VPS not found.").
Proof. apply performAction_not_found. reflexivity. Defined.

(** C10.  On an existing record, an action name other than [start],
    [shutdown] and [reboot] is accepted: [performAction] succeeds and
    returns the state as it was. *)
Theorem performAction_unrecognized (st : State) (userId action : string) (r : ref) :
  getUserVps st userId = Some r →
  action ≠ "start" → action ≠ "shutdown" → action ≠ "reboot" →
  performAction st userId action = (st, Success r).
Proof.
  intros G H1 H2 H3. unfold performAction. rewrite G.
  apply String.eqb_neq in H1, H2, H3. now rewrite H1, H2, H3.
Qed.

Lemma performAction_unrecognized_witness :
  performAction st_alice "111" "destroy" = (st_alice, Success 0).
Proof.
  apply performAction_unrecognized; [reflexivity|discriminate..].
Defined.

(** ** The deferred leg of [reboot] *)

Lemma run_clock evs : ∀ st, clock (run st evs) = (clock st + elapsed evs)%N.
Proof.
  induction evs as [|ev evs IH]; intros st; simpl; [lia|].
  rewrite IH. destruct ev as [u s|uid a|dt]; simpl.
  - unfold createLxc. destruct (getUserVps st (User.id u)); reflexivity.
  - unfold performAction. destruct (getUserVps st uid); [|reflexivity].
    repeat case_match; reflexivity.
  - unfold elapse. destruct (fire_due _ _ _). simpl. lia.
Qed.

Lemma rebooted_exec userId r v deadline st ev :
  quiet userId [ev] = true →
  rebooted userId r v deadline st →
  rebooted userId r v deadline (exec st ev).
Proof.
  intros Q (W & Hdb & v' & Hv' & Hf & Hs).
  split; [now apply wf_exec|].
  destruct ev as [u s|uid a|dt]; simpl in *.
  - unfold createLxc. destruct (getUserVps st (User.id u)) eqn:G; simpl.
    { split; [assumption|]. exists v'. auto. }
    split.
    + rewrite lookup_insert_ne; [assumption|]. intros E.
      unfold getUserVps in G. rewrite E in G. congruence.
    + exists v'. split; [now apply lookup_app_l_Some|auto].
  - rewrite andb_true_r in Q. apply negb_true_iff, String.eqb_neq in Q.
    unfold performAction. destruct (getUserVps st uid) as [r'|] eqn:G; simpl.
    2:{ split; [assumption|]. exists v'. auto. }
    assert (r' ≠ r) as Hne.
    { intros ->. apply Q. now apply (wf_db_inj st uid userId r). }
    repeat case_match; simpl; (split; [assumption|]); exists v';
      rewrite ?set_status_lookup, ?decide_False by assumption;
      (split; [assumption|]); (split; [assumption|]);
      try assumption.
    destruct Hs as [Hs|(due & Hin & Hd)]; [now left|right].
    exists due. split; [|assumption]. apply elem_of_app. now left.
  - unfold elapse.
    pose proof (fire_due_lookup (clock st + dt) (timers st) (objects st) r) as L.
    pose proof (fire_due_online (clock st + dt) (timers st) (objects st)) as O.
    pose proof (fire_due_pending (clock st + dt) (timers st) (objects st)) as P.
    destruct (fire_due (clock st + dt) (timers st) (objects st)) as [h rest].
    simpl in *. split; [assumption|]. rewrite Hv' in L. simpl in L.
    destruct Hs as [Hs|(due & Hin & Hd)].
    + destruct L as [L|L]; rewrite L; eexists; (split; [reflexivity|]); auto.
    + destruct (N.le_gt_cases due (clock st + dt)) as [Hle|Hgt].
      * rewrite (O due r Hin Hle), Hv'. simpl.
        eexists; (split; [reflexivity|]); auto.
      * destruct L as [L|L]; rewrite L; eexists; (split; [reflexivity|]); auto.
        split; [assumption|]. right. exists due. rewrite P. split; [auto|lia].
Qed.

Lemma rebooted_run userId r v deadline evs : ∀ st,
  quiet userId evs = true →
  rebooted userId r v deadline st →
  rebooted userId r v deadline (run st evs).
Proof.
  induction evs as [|ev evs IH]; intros st Q H; simpl; [assumption|].
  simpl in Q. apply andb_prop in Q as [Q1 Q2].
  apply IH; [assumption|]. apply rebooted_exec; [|assumption].
  simpl. now rewrite Q1.
Qed.

(** C4.  On an existing record [reboot] returns at once with the status of
    the record [rebooting] (id, owner, specs and credential as they were),
    and a callback is left pending: after any run in which the owner issues
    no further action and at least the delay of 5000 ms (5 s) passes, the
    status of the record is [online]. *)
Theorem reboot_then_online (st : State) (userId : string) (r : ref) (v : Vps.t) :
  reachable st →
  getUserVps st userId = Some r →
  deref st r = Some v →
  let st1 := (performAction st userId "reboot").1 in
  (performAction st userId "reboot").2 = Success r
  ∧ record_of st1 userId
    = Some (Vps.mk (Vps.id v) (Vps.owner v) (Vps.specs v) rebooting
              (Vps.tmateSession v))
  ∧ (clock st1, timers st1)
    = (clock st, (timers st ++ [((clock st + 5000)%N, r)])%list)
  ∧ ∀ evs,
      quiet userId evs = true →
      (5000 ≤ elapsed evs)%N →
      record_of (run st1 evs) userId
      = Some (Vps.mk (Vps.id v) (Vps.owner v) (Vps.specs v) online
                (Vps.tmateSession v)).
Proof.
  intros R G D st1. subst st1.
  rewrite (performAction_reboot st userId r G). simpl.
  split; [reflexivity|]. split.
  { unfold record_of, getUserVps, deref in *. simpl. rewrite G. simpl.
    rewrite set_status_lookup, decide_True by reflexivity. now rewrite D. }
  split; [reflexivity|].
  intros evs Q E.
  set (st1 := mkState _ _ _ _ _).
  assert (rebooted userId r v (clock st + REBOOT_DELAY) st1) as H.
  { split.
    - pose proof (wf_performAction st userId "reboot" (reachable_wf st R)) as W.
      now rewrite (performAction_reboot st userId r G) in W.
    - split; [exact G|]. exists (Vps.with_status rebooting v). subst st1. simpl.
      rewrite set_status_lookup, decide_True by reflexivity.
      unfold deref in D. rewrite D. split; [reflexivity|]. split; [reflexivity|].
      right. exists (clock st + REBOOT_DELAY)%N. split.
      + apply elem_of_app. right. now apply list_elem_of_singleton.
      + unfold REBOOT_DELAY. lia. }
  apply (rebooted_run userId r v _ evs st1 Q) in H.
  destruct H as (_ & Hdb & v' & Hv' & Hf & Hs).
  unfold record_of, getUserVps, deref. rewrite Hdb. simpl. rewrite Hv'.
  destruct Hs as [Hs|(due & _ & Hd)].
  - f_equal. destruct v', v. unfold fixed_part, Vps.with_status in *.
    simpl in *. congruence.
  - rewrite run_clock in Hd. subst st1. simpl in Hd. unfold REBOOT_DELAY in Hd. lia.
Qed.

Lemma reboot_then_online_witness :
  record_of (performAction st_alice "111" "reboot").1 "111"
  = Some (Vps.mk "LXC-1000" alice small rebooting
            "ssh alice-LXC-1000@tmate.kexson.host")
  ∧ record_of
      (run (performAction st_alice "111" "reboot").1
           [Elapse 2000; Create bob small; Action "222" "start"; Elapse 3000])
      "111"
    = Some (Vps.mk "LXC-1000" alice small online
              "ssh alice-LXC-1000@tmate.kexson.host").
Proof.
  destruct (reboot_then_online st_alice "111" 0
    alice_vps
    st_alice_reachable eq_refl eq_refl) as (_ & H2 & _ & H4).
  split; [exact H2|]. apply H4; [reflexivity|]. vm_compute. discriminate.
Defined.

(** ** The access credential *)

(** C6, as stated, fails: the credential is built from [user.username], not
    from [user.id].  Two creations with the same owner id and the same
    record id, one before and one after the owner changed name (each in a
    freshly started process), give different credentials. *)
Lemma credential_of_ownerId_counterexample :
  ∃ v1 v2,
    record_of (createLxc initial alice small).1 "111" = Some v1
    ∧ record_of (createLxc initial alice_renamed small).1 "111" = Some v2
    ∧ User.id (Vps.owner v1) = User.id (Vps.owner v2)
    ∧ Vps.id v1 = Vps.id v2
    ∧ Vps.tmateSession v1 ≠ Vps.tmateSession v2.
Proof.
  eexists. eexists.
  split; [reflexivity|]. split; [reflexivity|]. simpl.
  split; [reflexivity|]. split; [reflexivity|]. discriminate.
Qed.

(** C6, amended.  In every state the program reaches, the credential of a
    record is ["ssh "], the owner's user name, ["-"], the record's id and
    ["@tmate.kexson.host"]: a function of the pair (user name, id).  It is
    unique per record: two distinct records, and so two records of
    different owners, never carry the same credential. *)
Theorem credential_of_username_and_id (st : State) :
  reachable st →
  (∀ r v, deref st r = Some v →
     Vps.tmateSession v
     = "ssh " +:+ User.username (Vps.owner v) +:+ "-" +:+ Vps.id v
         +:+ "@tmate.kexson.host")
  ∧ (∀ r1 r2 v1 v2,
       deref st r1 = Some v1 → deref st r2 = Some v2 →
       r1 ≠ r2 → Vps.tmateSession v1 ≠ Vps.tmateSession v2)
  ∧ (∀ r1 r2 v1 v2,
       deref st r1 = Some v1 → deref st r2 = Some v2 →
       User.id (Vps.owner v1) ≠ User.id (Vps.owner v2) →
       Vps.tmateSession v1 ≠ Vps.tmateSession v2).
Proof.
  intros R. apply reachable_wf in R as (_ & _ & Hobj).
  assert (∀ r1 r2 v1 v2,
    deref st r1 = Some v1 → deref st r2 = Some v2 →
    Vps.tmateSession v1 = Vps.tmateSession v2 → r1 = r2) as U.
  { intros r1 r2 v1 v2 H1 H2 E.
    destruct (Hobj r1 v1 H1) as (_ & I1 & T1).
    destruct (Hobj r2 v2 H2) as (_ & I2 & T2).
    rewrite T1, T2, I1, I2 in E. apply tmate_of_inj_counter in E. lia. }
  split; [|split].
  - intros r v H. now destruct (Hobj r v H) as (_ & _ & T).
  - intros r1 r2 v1 v2 H1 H2 Hne E. apply Hne. eauto.
  - intros r1 r2 v1 v2 H1 H2 Hne E. apply Hne.
    rewrite (U r1 r2 v1 v2 H1 H2 E) in H1. congruence.
Qed.

Lemma credential_of_username_and_id_witness :
  Vps.tmateSession alice_vps
  = "ssh " +:+ User.username (Vps.owner alice_vps) +:+ "-" +:+ Vps.id alice_vps
      +:+ "@tmate.kexson.host".
Proof.
  apply (proj1 (credential_of_username_and_id st_alice st_alice_reachable) 0).
  reflexivity.
Defined.

(** ** The router runs the manager *)

Lemma find_command (nm : string) :
  List.find (λ cmd, String.eqb (name cmd) nm) commands
  = if String.eqb "deploy" nm then Some deploy_command
    else if String.eqb "manage" nm then Some manage_command
    else None.
Proof. reflexivity. Qed.

Lemma deploy_execute_run st i :
  ∃ evs, (deploy_execute st i).1.1 = run st evs.
Proof.
  unfold deploy_execute. destruct (deferReply_ok i); simpl; [|now exists []].
  exists [Create (getUser_user i)
            (Specs.mk (getInteger_ram i) (getInteger_disk i) (getInteger_cpu i))].
  simpl. destruct (createLxc st _ _) as [st' [m|r]]; simpl; [reflexivity|].
  destruct (deref st' r); [destruct (send_ok i), (editReply_ok i)|]; reflexivity.
Qed.

Lemma manage_execute_run st i : (manage_execute st i).1.1 = st.
Proof.
  unfold manage_execute.
  destruct (getUserVps st _); [destruct (deref st _); [destruct (reply_ok i)|]|];
    reflexivity.
Qed.

Lemma interactionCreate_run ADMIN_ID st i :
  ∃ evs, (interactionCreate ADMIN_ID st i).1 = run st evs.
Proof.
  unfold interactionCreate. rewrite find_command.
  destruct (isChatInputCommand i); simpl; [|now exists []].
  destruct (String.eqb "deploy" (commandName i)).
  - simpl. destruct (negb (String.eqb (User.id (user i)) ADMIN_ID)); simpl;
      [now exists []|].
    destruct (deploy_execute_run st i) as [evs E]. exists evs.
    destruct (deploy_execute st i) as [[st' out] []]; exact E.
  - destruct (String.eqb "manage" (commandName i)); simpl; [|now exists []].
    exists []. pose proof (manage_execute_run st i) as E.
    destruct (manage_execute st i) as [[st' out] []]; exact E.
Qed.

Lemma messageCreate_run trim toLowerCase st m :
  ∃ evs, (messageCreate trim toLowerCase st m).1 = run st evs.
Proof.
  unfold messageCreate.
  destruct (User.bot (author m) || negb (channel_is_DM m)); [now exists []|].
  destruct (getUserVps st _); [|now exists []].
  destruct (negb _); [now exists []|].
  destruct (deref st _); [|now exists []].
  repeat case_match; simpl;
    solve [ now exists []
          | now exists [Action (User.id (author m)) "reboot"]
          | now exists [Action (User.id (author m)) "shutdown"]
          | now exists [Action (User.id (author m)) "start"] ].
Qed.

Lemma run_keeps_fixed st evs r v :
  deref st r = Some v →
  ∃ v', deref (run st evs) r = Some v' ∧ fixed_part v' = fixed_part v.
Proof. apply fixed_prefix_lookup, run_fixed. Qed.

(** ** The specs of a record *)

(** C7, as stated, fails: [deploy] passes the integers of the request on
    as they are.  The administrator deploys with [ram = 0], [disk = -5],
    [cpu = 0] and the record is stored with these specs. *)
Lemma specs_positive_counterexample :
  ∃ v,
    record_of (interactionCreate "999" initial (deploy_for_alice 0 (-5) 0)).1 "111"
    = Some v
    ∧ ¬ (0 < Specs.ram (Vps.specs v))%Z
    ∧ ¬ (0 < Specs.disk (Vps.specs v))%Z
    ∧ ¬ (0 < Specs.cpu (Vps.specs v))%Z.
Proof.
  eexists. split; [reflexivity|]. simpl. repeat split; lia.
Qed.

(** C7, amended.  A record is stored with the specs given to [createLxc],
    which for [deploy] are the three integers of the request as they are
    (no check of their sign); and no run of the manager and no handler of
    the router changes the specs of a record object: nor its id, owner or
    credential. *)
Theorem specs_verbatim_and_immutable :
  (∀ st user specs st' r,
     createLxc st user specs = (st', Success r) →
     ∃ v, deref st' r = Some v ∧ Vps.specs v = specs)
  ∧ (∀ ADMIN_ID st i,
       isChatInputCommand i = true → commandName i = "deploy" →
       User.id (user i) = ADMIN_ID → deferReply_ok i = true →
       getUserVps st (User.id (getUser_user i)) = None →
       ∃ v, record_of (interactionCreate ADMIN_ID st i).1
              (User.id (getUser_user i)) = Some v
            ∧ Vps.specs v
              = Specs.mk (getInteger_ram i) (getInteger_disk i) (getInteger_cpu i))
  ∧ (∀ st evs r v,
       deref st r = Some v →
       ∃ v', deref (run st evs) r = Some v' ∧ fixed_part v' = fixed_part v
             ∧ Vps.specs v' = Vps.specs v)
  ∧ (∀ ADMIN_ID st i r v,
       deref st r = Some v →
       ∃ v', deref (interactionCreate ADMIN_ID st i).1 r = Some v'
             ∧ Vps.specs v' = Vps.specs v)
  ∧ (∀ trim toLowerCase st m r v,
       deref st r = Some v →
       ∃ v', deref (messageCreate trim toLowerCase st m).1 r = Some v'
             ∧ Vps.specs v' = Vps.specs v).
Proof.
  assert (∀ st evs r v, deref st r = Some v →
    ∃ v', deref (run st evs) r = Some v' ∧ fixed_part v' = fixed_part v
          ∧ Vps.specs v' = Vps.specs v) as K.
  { intros st evs r v D.
    destruct (run_keeps_fixed st evs r v D) as (v' & D' & F).
    exists v'. split; [assumption|]. split; [assumption|].
    now apply fixed_part_eq in F as (_ & _ & -> & _). }
  split; [|split; [|split; [|split]]].
  - intros st user specs st' r. unfold createLxc.
    destruct (getUserVps st (User.id user)); [discriminate|].
    intros E. injection E as <- <-. eexists.
    split; [unfold deref; simpl; now apply list_lookup_middle|reflexivity].
  - intros ADMIN_ID st i Hc Hn Hu Hd G.
    unfold interactionCreate. rewrite find_command, Hc, Hn, Hu. simpl.
    rewrite String.eqb_refl. simpl.
    unfold deploy_execute. rewrite Hd. simpl.
    unfold createLxc. rewrite G. simpl.
    unfold deref. simpl. rewrite list_lookup_middle by reflexivity.
    exists (Vps.mk (vpsId_of (vpsIdCounter st)) (getUser_user i)
              (Specs.mk (getInteger_ram i) (getInteger_disk i) (getInteger_cpu i))
              offline
              (tmate_of (User.username (getUser_user i))
                        (vpsId_of (vpsIdCounter st)))).
    split; [|reflexivity].
    destruct (send_ok i), (editReply_ok i), (editReply_retry_ok i); simpl;
      unfold record_of, getUserVps, deref; simpl;
      rewrite lookup_insert_eq; simpl; now apply list_lookup_middle.
  - exact K.
  - intros ADMIN_ID st i r v D.
    destruct (interactionCreate_run ADMIN_ID st i) as [evs ->].
    destruct (K st evs r v D) as (v' & ? & _ & ?). eauto.
  - intros trim toLowerCase st m r v D.
    destruct (messageCreate_run trim toLowerCase st m) as [evs ->].
    destruct (K st evs r v D) as (v' & ? & _ & ?). eauto.
Qed.

Lemma specs_verbatim_and_immutable_witness :
  ∃ v', deref (run st_alice [Action "111" "reboot"; Elapse 6000; Create bob small]) 0
        = Some v'
        ∧ fixed_part v'
          = fixed_part alice_vps
        ∧ Vps.specs v' = small.
Proof.
  apply (proj1 (proj2 (proj2 specs_verbatim_and_immutable)) st_alice). reflexivity.
Defined.

(** ** The router *)

(** C8.  A [deploy] command from a user whose id is not [ADMIN_ID] gets the
    not-an-admin reply and nothing else happens: [execute] does not run, so
    neither [createLxc] nor [performAction] is called and the state is the
    one before. *)
Theorem deploy_denied_for_non_admin
  (ADMIN_ID : string) (st : State) (i : Interaction) :
  isChatInputCommand i = true →
  commandName i = "deploy" →
  User.id (user i) ≠ ADMIN_ID →
  interactionCreate ADMIN_ID st i = (st, [Reply "❌ You are not an admin." true]).
Proof.
  intros Hc Hn Hu. unfold interactionCreate.
  rewrite find_command, Hc, Hn. simpl.
  apply String.eqb_neq in Hu. now rewrite Hu.
Qed.

Lemma deploy_denied_for_non_admin_witness :
  interactionCreate "999" st_alice
    (mkInteraction true "deploy" bob bob 4096 100 8 true true true true true)
  = (st_alice, [Reply "❌ You are not an admin." true]).
Proof.
  apply deploy_denied_for_non_admin; [reflexivity|reflexivity|discriminate].
Defined.

(** C9, as stated, fails: [alice] owns a record and sends ["hello"], which
    is none of the commands; the handler returns at the test for the
    leading ['!'] and sends no reply. *)
Lemma unknown_command_counterexample :
  is_Some (getUserVps st_alice (User.id alice))
  ∧ commandName_of ascii_trim ascii_toLowerCase "hello" = "hello"
  ∧ messageCreate ascii_trim ascii_toLowerCase st_alice
      (mkMessage alice true "hello")
    = (st_alice, []).
Proof. split; [now exists 0|]. split; reflexivity. Qed.

(** C9, amended.  For a direct message from a user (not a bot) who owns a
    record, let the command name be the first space-separated word of the
    trimmed text, in lower case.  If it is none of [!help], [!status],
    [!reboot], [!shutdown], [!start], [!ssh] then: when it starts with
    ['!'] the router sends the unknown-command reply, when it does not the
    router sends nothing; in both cases the state is the one before. *)
Theorem unknown_command_reply
  (trim toLowerCase : string → string) (st : State) (m : Message) :
  reachable st →
  User.bot (author m) = false →
  channel_is_DM m = true →
  is_Some (getUserVps st (User.id (author m))) →
  commandName_of trim toLowerCase (content m) ∉ recognized →
  messageCreate trim toLowerCase st m
  = (st,
     if startsWith_bang (commandName_of trim toLowerCase (content m))
     then [Send (author m)
             "Unknown command. Type `!help` to see available commands."]
     else []).
Proof.
  intros R Hb Hd [r G] Hn.
  destruct (reachable_wf st R) as (_ & Hdb & _).
  destruct (Hdb _ _ G) as (v & Hv & _).
  unfold messageCreate. rewrite Hb, Hd, G. simpl.
  destruct (startsWith_bang _); simpl; [|reflexivity].
  unfold deref. rewrite Hv.
  unfold recognized in Hn.
  repeat (apply not_elem_of_cons in Hn as [?%String.eqb_neq Hn]).
  repeat match goal with H : String.eqb _ _ = false |- _ => rewrite H; clear H end.
  reflexivity.
Qed.

Lemma unknown_command_reply_witness :
  messageCreate ascii_trim ascii_toLowerCase st_alice
    (mkMessage alice true "  !Restart now ")
  = (st_alice,
     [Send alice "Unknown command. Type `!help` to see available commands."]).
Proof.
  apply (unknown_command_reply ascii_trim ascii_toLowerCase st_alice
           (mkMessage alice true "  !Restart now ") st_alice_reachable eq_refl eq_refl).
  - now exists 0.
  - vm_compute. intros H. repeat (apply elem_of_cons in H as [H|H]; [discriminate|]).
    inversion H.
Defined.

(** * Further properties of the code *)

(** ** Callbacks *)

(** What running the due callbacks does to one object. *)
Lemma fire_due_spec now ts : ∀ (h : list Vps.t) j,
  (fire_due now ts h).1 !! j
  = if due_for now j ts then Vps.with_status online <$> h !! j else h !! j.
Proof.
  induction ts as [|[d r] ts IH]; intros h j; simpl; [reflexivity|].
  destruct (N.leb_spec d now) as [Hle|Hgt]; simpl.
  - rewrite IH, set_status_lookup.
    destruct (Nat.eqb_spec r j) as [->|Hne].
    + rewrite decide_True by reflexivity.
      destruct (due_for now j ts), (h !! j); reflexivity.
    + rewrite decide_False by assumption. reflexivity.
  - specialize (IH h j). destruct (fire_due now ts h). exact IH.
Qed.

Lemma fire_due_rest now ts : ∀ h : list Vps.t,
  (fire_due now ts h).2 = List.filter (λ t, negb (t.1 <=? now)%N) ts.
Proof.
  induction ts as [|[d r] ts IH]; intros h; simpl; [reflexivity|].
  destruct (d <=? now)%N; simpl; [apply IH|].
  specialize (IH h). destruct (fire_due now ts h). simpl in *. now rewrite IH.
Qed.

Lemma due_for_false now j ts :
  (∀ d, (d, j) ∈ ts → (now < d)%N) → due_for now j ts = false.
Proof.
  induction ts as [|[d r] ts IH]; intros H; simpl; [reflexivity|].
  rewrite IH by (intros d' Hd; apply H; now right).
  destruct (Nat.eqb_spec r j) as [->|]; [|now rewrite andb_false_r].
  assert (now < d)%N as L by (apply H; now left).
  apply N.leb_gt in L. now rewrite L.
Qed.

Lemma fire_due_untouched now ts (h : list Vps.t) j :
  (∀ d, (d, j) ∈ ts → (now < d)%N) → (fire_due now ts h).1 !! j = h !! j.
Proof. intros H. now rewrite fire_due_spec, due_for_false. Qed.

Lemma due_for_filter now1 now2 j ts :
  (now1 ≤ now2)%N →
  due_for now2 j ts
  = due_for now1 j ts
    || due_for now2 j (List.filter (λ t, negb (t.1 <=? now1)%N) ts).
Proof.
  intros L. induction ts as [|[d r] ts IH]; simpl; [reflexivity|].
  rewrite IH. destruct (N.leb_spec d now1) as [H1|H1]; simpl.
  - assert ((d <=? now2)%N = true) as -> by (apply N.leb_le; lia).
    simpl. destruct (r =? j)%nat; simpl; [reflexivity|reflexivity].
  - destruct ((d <=? now2)%N && (r =? j)%nat); simpl; [|reflexivity].
    now rewrite orb_true_r.
Qed.

Lemma filter_pending_twice now1 now2 (ts : list Timer) :
  (now1 ≤ now2)%N →
  List.filter (λ t, negb (t.1 <=? now2)%N)
    (List.filter (λ t, negb (t.1 <=? now1)%N) ts)
  = List.filter (λ t, negb (t.1 <=? now2)%N) ts.
Proof.
  intros L. induction ts as [|[d r] ts IH]; simpl; [reflexivity|].
  destruct (N.leb_spec d now1) as [H1|H1]; simpl.
  - assert ((d <=? now2)%N = true) as -> by (apply N.leb_le; lia). exact IH.
  - destruct (d <=? now2)%N; simpl; now rewrite IH.
Qed.

(** X17.  Waiting [a] and then [b] milliseconds leaves the state that
    waiting [a + b] milliseconds leaves: which callbacks have run, and what
    they wrote, does not depend on how the time is cut up. *)
Theorem elapse_elapse (st : State) (a b : N) :
  elapse (elapse st a) b = elapse st (a + b).
Proof.
  unfold elapse.
  pose proof (fire_due_spec (clock st + a) (timers st) (objects st)) as S1.
  pose proof (fire_due_rest (clock st + a) (timers st) (objects st)) as R1.
  pose proof (fire_due_fixed (clock st + a) (timers st) (objects st)) as F1.
  destruct (fire_due (clock st + a) (timers st) (objects st)) as [h1 rest1].
  simpl in *.
  pose proof (fire_due_spec (clock st + a + b) rest1 h1) as S2.
  pose proof (fire_due_rest (clock st + a + b) rest1 h1) as R2.
  destruct (fire_due (clock st + a + b) rest1 h1) as [h2 rest2]. simpl in *.
  pose proof (fire_due_spec (clock st + (a + b)) (timers st) (objects st)) as S3.
  pose proof (fire_due_rest (clock st + (a + b)) (timers st) (objects st)) as R3.
  destruct (fire_due (clock st + (a + b)) (timers st) (objects st)) as [h3 rest3].
  simpl in *.
  replace (clock st + (a + b))%N with (clock st + a + b)%N in * by lia.
  f_equal.
  - apply list_eq. intros j. rewrite S2, S1, S3.
    rewrite (due_for_filter (clock st + a) (clock st + a + b) j (timers st)) by lia.
    rewrite <- R1.
    destruct (due_for (clock st + a) j (timers st)),
             (due_for (clock st + a + b) j rest1), (objects st !! j);
      reflexivity.
  - rewrite R2, R3, R1. apply filter_pending_twice. lia.
Qed.

(** A pending callback stays pending until it is due, whatever happens. *)
Lemma pending_kept evs : ∀ st due r,
  (due, r) ∈ timers st →
  (clock st + elapsed evs < due)%N →
  (due, r) ∈ timers (run st evs).
Proof.
  induction evs as [|ev evs IH]; intros st due r Hin Hlt; simpl; [assumption|].
  apply IH.
  - destruct ev as [u s|uid a|dt]; simpl.
    + unfold createLxc. destruct (getUserVps st (User.id u)); assumption.
    + unfold performAction. destruct (getUserVps st uid); [|assumption].
      repeat case_match; simpl; try assumption. apply elem_of_app. now left.
    + unfold elapse.
      pose proof (fire_due_pending (clock st + dt) (timers st) (objects st) due r) as P.
      destruct (fire_due (clock st + dt) (timers st) (objects st)). simpl in *.
      apply P. split; [assumption|]. lia.
  - pose proof (run_clock [ev] st) as C. simpl in C. rewrite C.
    destruct ev; simpl in *; lia.
Qed.

(** X9.  The deferred transition of [reboot] cannot be cancelled.  Whatever
    happens in the first 5000 ms after a [reboot] (also a [shutdown] or any
    other action of the owner), the status of the record is [online] at the
    moment the 5000 ms have passed; its id, owner, specs and credential are
    as they were. *)
Theorem reboot_callback_not_cancelled
  (st : State) (userId : string) (r : ref) (v : Vps.t)
  (evs : list Event) (dt : N) :
  getUserVps st userId = Some r →
  deref st r = Some v →
  (elapsed evs < 5000)%N →
  (5000 ≤ elapsed evs + dt)%N →
  deref (run (performAction st userId "reboot").1 (evs ++ [Elapse dt])%list) r
  = Some (Vps.mk (Vps.id v) (Vps.owner v) (Vps.specs v) online
            (Vps.tmateSession v)).
Proof.
  intros G D Hlt Hge.
  rewrite (performAction_reboot st userId r G). simpl.
  set (st1 := mkState _ _ _ _ _).
  unfold run. rewrite foldl_app. fold (run st1 evs). simpl.
  assert (((clock st + REBOOT_DELAY)%N, r) ∈ timers (run st1 evs)) as Hin.
  { apply pending_kept.
    - subst st1. simpl. apply elem_of_app. right. now apply list_elem_of_singleton.
    - subst st1. simpl. unfold REBOOT_DELAY. lia. }
  assert (deref st1 r = Some (Vps.with_status rebooting v)) as D1.
  { subst st1. unfold deref in *. simpl.
    rewrite set_status_lookup, decide_True by reflexivity. now rewrite D. }
  destruct (run_keeps_fixed st1 evs r _ D1) as (v' & D' & F).
  unfold elapse, deref in *.
  pose proof (fire_due_online (clock (run st1 evs) + dt) (timers (run st1 evs))
                (objects (run st1 evs)) _ r Hin) as O.
  destruct (fire_due _ _ _) as [h rest]. simpl in *.
  rewrite O, D'.
  - simpl. f_equal. destruct v', v. unfold fixed_part, Vps.with_status in *.
    simpl in *. congruence.
  - rewrite run_clock. subst st1. simpl. unfold REBOOT_DELAY. lia.
Qed.

Lemma reboot_callback_not_cancelled_witness :
  deref (run (performAction st_alice "111" "reboot").1
           ([Elapse 1000; Action "111" "shutdown"; Elapse 3000] ++ [Elapse 1000])%list) 0
  = Some (Vps.mk "LXC-1000" alice small online
            "ssh alice-LXC-1000@tmate.kexson.host").
Proof.
  apply (reboot_callback_not_cancelled st_alice "111" 0 alice_vps
           [Elapse 1000; Action "111" "shutdown"; Elapse 3000] 1000);
    [reflexivity|reflexivity| |]; vm_compute; congruence.
Defined.

(** ** What leaves a record alone *)

Lemma held_exec userId r w deadline st ev :
  quiet userId [ev] = true →
  (clock (exec st ev) < deadline)%N →
  held userId r w deadline st →
  held userId r w deadline (exec st ev).
Proof.
  intros Q C (W & Hdb & Hw & Ht).
  split; [now apply wf_exec|].
  destruct ev as [u s|uid a|dt]; simpl in *.
  - unfold createLxc. destruct (getUserVps st (User.id u)) eqn:G; simpl; [auto|].
    split; [|split; [now apply lookup_app_l_Some|assumption]].
    rewrite lookup_insert_ne; [assumption|]. intros E.
    unfold getUserVps in G. rewrite E in G. congruence.
  - rewrite andb_true_r in Q. apply negb_true_iff, String.eqb_neq in Q.
    unfold performAction. destruct (getUserVps st uid) as [r'|] eqn:G; simpl; [|auto].
    assert (r' ≠ r) as Hne.
    { intros ->. apply Q. now apply (wf_db_inj st uid userId r). }
    repeat case_match; simpl; (split; [assumption|]);
      rewrite ?set_status_lookup, ?decide_False by assumption;
      (split; [assumption|]); try assumption.
    intros d Hd. apply elem_of_app in Hd as [Hd|Hd]; [auto|].
    apply list_elem_of_singleton in Hd. congruence.
  - unfold elapse in *.
    pose proof (fire_due_untouched (clock st + dt) (timers st) (objects st) r) as U.
    pose proof (fire_due_pending (clock st + dt) (timers st) (objects st)) as P.
    destruct (fire_due (clock st + dt) (timers st) (objects st)) as [h rest].
    simpl in *. split; [assumption|]. split.
    + rewrite U; [assumption|]. intros d Hd. specialize (Ht d Hd). lia.
    + intros d Hd. apply P in Hd as [Hd _]. auto.
Qed.

Lemma held_run userId r w deadline evs : ∀ st,
  quiet userId evs = true →
  (clock st + elapsed evs < deadline)%N →
  held userId r w deadline st →
  held userId r w deadline (run st evs).
Proof.
  induction evs as [|ev evs IH]; intros st Q C H; simpl; [assumption|].
  simpl in Q. apply andb_prop in Q as [Q1 Q2].
  pose proof (run_clock [ev] st) as K. simpl in K.
  apply IH; [assumption| |].
  - rewrite K. destruct ev; simpl in *; lia.
  - apply held_exec; [simpl; now rewrite Q1| |assumption].
    rewrite K. destruct ev; simpl in *; lia.
Qed.

Lemma timers_valid_exec st ev :
  wf st → timers_valid st → timers_valid (exec st ev).
Proof.
  intros (_ & Hdb & _) T. unfold timers_valid in *.
  destruct ev as [u s|uid a|dt]; simpl.
  - unfold createLxc. destruct (getUserVps st (User.id u)); simpl; [assumption|].
    intros d r Hin. rewrite length_app. specialize (T d r Hin). lia.
  - unfold performAction. destruct (getUserVps st uid) as [r'|] eqn:G; simpl;
      [|assumption].
    destruct (Hdb uid r' G) as (v & Hv & _). apply lookup_lt_Some in Hv.
    repeat case_match; try assumption; intros d r Hin; simpl in *;
      unfold set_status; rewrite length_alter; try (now apply (T d r)).
    apply elem_of_app in Hin as [Hin|Hin]; [now apply (T d r)|].
    apply list_elem_of_singleton in Hin. injection Hin as -> ->. assumption.
  - unfold elapse.
    pose proof (fire_due_fixed (clock st + dt) (timers st) (objects st)) as F.
    pose proof (fire_due_pending (clock st + dt) (timers st) (objects st)) as P.
    destruct (fire_due (clock st + dt) (timers st) (objects st)) as [h rest].
    simpl in *. intros d r Hin. apply P in Hin as [Hin _].
    apply (f_equal length) in F. rewrite !length_fmap in F. rewrite F.
    now apply (T d r).
Qed.

Lemma reachable_timers_valid st : reachable st → timers_valid st.
Proof.
  intros [evs ->].
  assert (∀ evs st, wf st → timers_valid st → timers_valid (run st evs)) as K.
  { clear. induction evs as [|ev evs IH]; intros st W T; simpl; [assumption|].
    apply IH; [now apply wf_exec|now apply timers_valid_exec]. }
  apply K; [apply wf_initial|]. intros d r H. inversion H.
Qed.

(** X10.  A record changes only through an action of its owner or through
    a callback pending for it: in a state the program reaches, if no
    callback is pending for a record, then after any run without an action
    of its owner (creations, actions of others, time passing) the record is
    exactly as it was. *)
Theorem record_stable_without_owner_action
  (st : State) (userId : string) (r : ref) (v : Vps.t) (evs : list Event) :
  reachable st →
  getUserVps st userId = Some r →
  deref st r = Some v →
  no_callback_for r st →
  quiet userId evs = true →
  record_of (run st evs) userId = Some v.
Proof.
  intros R G D N Q.
  assert (held userId r v (clock st + elapsed evs + 1) st) as H.
  { split; [now apply reachable_wf|]. split; [exact G|]. split; [exact D|].
    intros d Hd. now apply N in Hd. }
  apply (held_run userId r v _ evs st Q) in H; [|lia].
  destruct H as (_ & Hdb & Hv & _).
  unfold record_of, getUserVps, deref. rewrite Hdb. simpl. exact Hv.
Qed.

Lemma record_stable_without_owner_action_witness :
  record_of (run st_two [Elapse 6000; Action "222" "shutdown";
                         Create alice_renamed small]) "111"
  = Some alice_vps.
Proof.
  apply (record_stable_without_owner_action st_two "111" 0 alice_vps).
  - now exists [Create alice small; Create bob small; Action "222" "reboot"].
  - reflexivity.
  - reflexivity.
  - intros due H. vm_compute in H. apply list_elem_of_singleton in H. discriminate.
  - reflexivity.
Defined.

(** X11.  A record that was just created stays [offline], with the specs,
    id and credential it was created with, until its owner issues an
    action: no callback can be pending for a new object. *)
Theorem fresh_record_stays_offline
  (st : State) (user : User.t) (specs : Specs.t) (evs : list Event) :
  reachable st →
  getUserVps st (User.id user) = None →
  quiet (User.id user) evs = true →
  let vpsId := "LXC-" +:+ Number_toString (vpsIdCounter st) in
  record_of (run (createLxc st user specs).1 evs) (User.id user)
  = Some (Vps.mk vpsId user specs offline (tmate_of (User.username user) vpsId)).
Proof.
  intros R G Q vpsId.
  pose proof (wf_createLxc st user specs (reachable_wf st R)) as W.
  pose proof (reachable_timers_valid st R) as T.
  revert W. unfold createLxc. rewrite G. simpl.
  set (st1 := mkState _ _ _ _ _). intros W.
  assert (held (User.id user) (length (objects st))
            (Vps.mk vpsId user specs offline (tmate_of (User.username user) vpsId))
            (clock st1 + elapsed evs + 1) st1) as H.
  { split; [exact W|]. subst st1. simpl. split; [apply lookup_insert_eq|]. split.
    - now apply list_lookup_middle.
    - intros d Hd. apply T in Hd. lia. }
  apply (held_run _ _ _ _ evs st1 Q) in H; [|lia].
  destruct H as (_ & Hdb & Hv & _).
  unfold record_of, getUserVps, deref. rewrite Hdb. simpl. exact Hv.
Qed.

Lemma fresh_record_stays_offline_witness :
  record_of (run (createLxc st_alice bob small).1
               [Elapse 9000; Action "111" "reboot"; Elapse 9000]) "222"
  = Some (Vps.mk "LXC-1001" bob small offline "ssh bob-LXC-1001@tmate.kexson.host").
Proof.
  apply (fresh_record_stays_offline st_alice bob small);
    [exact st_alice_reachable|reflexivity|reflexivity].
Defined.

(** X12.  A reboot lasts the whole delay: if no earlier callback is pending
    for the record, then from [reboot] on, as long as its owner issues no
    action and less than 5000 ms have passed, the status of the record is
    [rebooting]; its id, owner, specs and credential are as they were. *)
Theorem rebooting_for_the_whole_delay
  (st : State) (userId : string) (r : ref) (v : Vps.t) (evs : list Event) :
  reachable st →
  getUserVps st userId = Some r →
  deref st r = Some v →
  no_callback_for r st →
  quiet userId evs = true →
  (elapsed evs < 5000)%N →
  record_of (run (performAction st userId "reboot").1 evs) userId
  = Some (Vps.mk (Vps.id v) (Vps.owner v) (Vps.specs v) rebooting
            (Vps.tmateSession v)).
Proof.
  intros R G D N Q L.
  pose proof (wf_performAction st userId "reboot" (reachable_wf st R)) as W.
  revert W. rewrite (performAction_reboot st userId r G). simpl.
  set (st1 := mkState _ _ _ _ _). intros W.
  assert (held userId r (Vps.with_status rebooting v)
            (clock st + REBOOT_DELAY) st1) as H.
  { split; [exact W|]. split; [exact G|]. subst st1. simpl. split.
    - rewrite set_status_lookup, decide_True by reflexivity.
      unfold deref in D. now rewrite D.
    - intros d Hd. apply elem_of_app in Hd as [Hd|Hd]; [now apply N in Hd|].
      apply list_elem_of_singleton in Hd. injection Hd as ->. lia. }
  apply (held_run userId r _ _ evs st1 Q) in H.
  - destruct H as (_ & Hdb & Hv & _).
    unfold record_of, getUserVps, deref. rewrite Hdb. simpl. exact Hv.
  - subst st1. simpl. unfold REBOOT_DELAY. lia.
Qed.

Lemma rebooting_for_the_whole_delay_witness :
  record_of (run (performAction st_alice "111" "reboot").1
               [Elapse 2500; Create bob small; Elapse 2499]) "111"
  = Some (Vps.mk "LXC-1000" alice small rebooting
            "ssh alice-LXC-1000@tmate.kexson.host").
Proof.
  apply (rebooting_for_the_whole_delay st_alice "111" 0 alice_vps);
    [exact st_alice_reachable|reflexivity|reflexivity| |reflexivity|reflexivity].
  intros due H. inversion H.
Defined.

(** ** The registry over the life of the process *)

Lemma run_app st evs1 evs2 : run st (evs1 ++ evs2) = run (run st evs1) evs2.
Proof. unfold run. apply foldl_app. Qed.

Lemma handle_run ADMIN_ID trim toLowerCase st inb :
  ∃ evs, handle ADMIN_ID trim toLowerCase st inb = run st evs.
Proof.
  destruct inb as [i|m|dt]; simpl.
  - apply interactionCreate_run.
  - apply messageCreate_run.
  - now exists [Elapse dt].
Qed.

Lemma serve_run ADMIN_ID trim toLowerCase ins : ∀ st,
  ∃ evs, serve ADMIN_ID trim toLowerCase st ins = run st evs.
Proof.
  induction ins as [|inb ins IH]; intros st; simpl; [now exists []|].
  destruct (handle_run ADMIN_ID trim toLowerCase st inb) as [evs1 E1].
  destruct (IH (handle ADMIN_ID trim toLowerCase st inb)) as [evs2 E2].
  exists (evs1 ++ evs2)%list. unfold serve in *. now rewrite E2, E1, run_app.
Qed.

Lemma exec_size st ev :
  size (vpsDatabase st) = length (objects st) →
  size (vpsDatabase (exec st ev)) = length (objects (exec st ev)).
Proof.
  intros E. destruct ev as [u s|uid a|dt]; simpl.
  - unfold createLxc. destruct (getUserVps st (User.id u)) eqn:G; simpl; [assumption|].
    rewrite map_size_insert_None by exact G. rewrite length_app. simpl. lia.
  - unfold performAction. destruct (getUserVps st uid); simpl; [|assumption].
    repeat case_match; simpl; unfold set_status; rewrite ?length_alter; assumption.
  - unfold elapse.
    pose proof (fire_due_fixed (clock st + dt) (timers st) (objects st)) as F.
    destruct (fire_due (clock st + dt) (timers st) (objects st)). simpl in *.
    apply (f_equal length) in F. rewrite !length_fmap in F. congruence.
Qed.

Lemma run_size evs : ∀ st,
  size (vpsDatabase st) = length (objects st) →
  size (vpsDatabase (run st evs)) = length (objects (run st evs)).
Proof.
  induction evs as [|ev evs IH]; intros st E; simpl; auto using exec_size.
Qed.

(** X13.  After any sequence of interactions, messages and waits from a
    fresh start, the counter is 1000 plus the number of owners in the map,
    which is the number of record objects; and the record made [r]-th (from
    0) has id ["LXC-"] followed by [1000 + r] and is the record the map
    holds for its owner. *)
Theorem registry_counts
  (ADMIN_ID : string) (trim toLowerCase : string → string)
  (ins : list Inbound) :
  let st := serve ADMIN_ID trim toLowerCase initial ins in
  vpsIdCounter st = (1000 + N.of_nat (size (vpsDatabase st)))%N
  ∧ length (objects st) = size (vpsDatabase st)
  ∧ ∀ r v, deref st r = Some v →
      Vps.id v = "LXC-" +:+ Number_toString (1000 + N.of_nat r)
      ∧ getUserVps st (User.id (Vps.owner v)) = Some r.
Proof.
  intros st. subst st.
  destruct (serve_run ADMIN_ID trim toLowerCase ins initial) as [evs ->].
  destruct (wf_run evs initial wf_initial) as (Hc & _ & Hobj).
  pose proof (run_size evs initial eq_refl) as S.
  split; [now rewrite S|]. split; [now rewrite S|].
  intros r v D. destruct (Hobj r v D) as (H1 & H2 & _). auto.
Qed.

Lemma exec_grows st ev :
  vpsDatabase st ⊆ vpsDatabase (exec st ev)
  ∧ (vpsIdCounter st ≤ vpsIdCounter (exec st ev))%N.
Proof.
  destruct ev as [u s|uid a|dt]; simpl.
  - unfold createLxc. destruct (getUserVps st (User.id u)) eqn:G; simpl; [split; [reflexivity|lia]|].
    split; [now apply insert_subseteq|lia].
  - unfold performAction. destruct (getUserVps st uid); simpl; [|split; [reflexivity|lia]].
    repeat case_match; simpl; (split; [reflexivity|lia]).
  - unfold elapse. destruct (fire_due _ _ _). simpl. split; [reflexivity|lia].
Qed.

Lemma run_grows evs : ∀ st,
  vpsDatabase st ⊆ vpsDatabase (run st evs)
  ∧ (vpsIdCounter st ≤ vpsIdCounter (run st evs))%N.
Proof.
  induction evs as [|ev evs IH]; intros st; simpl; [split; [reflexivity|lia]|].
  destruct (exec_grows st ev) as [A B]. destruct (IH (exec st ev)) as [C D].
  split; [etrans; eassumption|lia].
Qed.

(** X14.  Nothing is ever deleted or replaced.  From any state, after any
    sequence of interactions, messages and waits: every owner still has the
    very record object they had, with the same id, owner, specs and
    credential (only the status may differ); and the counter and the clock
    have not gone back. *)
Theorem registry_only_grows
  (ADMIN_ID : string) (trim toLowerCase : string → string)
  (st : State) (ins : list Inbound) :
  let st' := serve ADMIN_ID trim toLowerCase st ins in
  (∀ userId r, getUserVps st userId = Some r → getUserVps st' userId = Some r)
  ∧ (∀ r v, deref st r = Some v →
       ∃ v', deref st' r = Some v'
             ∧ Vps.with_status (Vps.status v) v' = v)
  ∧ (vpsIdCounter st ≤ vpsIdCounter st')%N
  ∧ (clock st ≤ clock st')%N.
Proof.
  intros st'. subst st'.
  destruct (serve_run ADMIN_ID trim toLowerCase ins st) as [evs ->].
  destruct (run_grows evs st) as [Hsub Hc].
  split; [|split; [|split]].
  - intros userId r G. unfold getUserVps in *.
    eapply lookup_weaken; eassumption.
  - intros r v D. destruct (run_keeps_fixed st evs r v D) as (v' & D' & F).
    exists v'. split; [assumption|].
    destruct v, v'. unfold fixed_part, Vps.with_status in *. simpl in *. congruence.
  - assumption.
  - rewrite run_clock. lia.
Qed.

(** ** One owner's commands and the other owners' records *)

Lemma performAction_other st userId action other :
  wf st → other ≠ userId →
  record_of (performAction st userId action).1 other = record_of st other.
Proof.
  intros W Hne. unfold performAction.
  destruct (getUserVps st userId) as [r|] eqn:G; simpl; [|reflexivity].
  unfold record_of, getUserVps, deref.
  destruct (vpsDatabase st !! other) as [r'|] eqn:G';
    [|repeat case_match; simpl; now rewrite G'].
  assert (r ≠ r') as Hr.
  { intros ->. apply Hne. now apply (wf_db_inj st other userId r'). }
  repeat case_match; simpl; rewrite G'; simpl;
    rewrite ?set_status_lookup, ?decide_False by assumption; reflexivity.
Qed.

Lemma performAction_registry st userId action :
  vpsDatabase (performAction st userId action).1 = vpsDatabase st
  ∧ vpsIdCounter (performAction st userId action).1 = vpsIdCounter st
  ∧ length (objects (performAction st userId action).1) = length (objects st).
Proof.
  unfold performAction. destruct (getUserVps st userId); simpl; [|auto].
  repeat case_match; simpl; unfold set_status; rewrite ?length_alter; auto.
Qed.

(** X15.  [performAction] for one owner leaves the record of every other
    owner exactly as it was, in every state the program reaches, and never
    touches the map, the counter or the number of records. *)
Theorem performAction_isolated
  (st : State) (userId action other : string) :
  reachable st →
  other ≠ userId →
  record_of (performAction st userId action).1 other = record_of st other
  ∧ vpsDatabase (performAction st userId action).1 = vpsDatabase st
  ∧ vpsIdCounter (performAction st userId action).1 = vpsIdCounter st
  ∧ length (objects (performAction st userId action).1) = length (objects st).
Proof.
  intros R Hne. split; [|apply performAction_registry].
  apply performAction_other; [now apply reachable_wf|assumption].
Qed.

Lemma performAction_isolated_witness :
  record_of (performAction st_two "111" "start").1 "222" = record_of st_two "222".
Proof.
  apply (performAction_isolated st_two "111" "start" "222").
  - now exists [Create alice small; Create bob small; Action "222" "reboot"].
  - discriminate.
Defined.

Lemma messageCreate_state trim toLowerCase st m :
  (messageCreate trim toLowerCase st m).1 = st
  ∨ ∃ action,
      (messageCreate trim toLowerCase st m).1
      = (performAction st (User.id (author m)) action).1.
Proof.
  unfold messageCreate.
  destruct (User.bot (author m) || negb (channel_is_DM m)); [now left|].
  destruct (getUserVps st _); [|now left].
  destruct (negb _); [now left|].
  destruct (deref st _); [|now left].
  repeat case_match; simpl; solve [now left | right; eexists; reflexivity].
Qed.

(** X16.  Through direct messages a user reaches only their own record: a
    message, whatever its text, leaves the record of every owner other than
    its author exactly as it was, and never adds or removes a record. *)
Theorem dm_reaches_only_own_record
  (trim toLowerCase : string → string) (st : State) (m : Message)
  (other : string) :
  reachable st →
  other ≠ User.id (author m) →
  let st' := (messageCreate trim toLowerCase st m).1 in
  record_of st' other = record_of st other
  ∧ vpsDatabase st' = vpsDatabase st
  ∧ vpsIdCounter st' = vpsIdCounter st
  ∧ length (objects st') = length (objects st).
Proof.
  intros R Hne st'. subst st'.
  destruct (messageCreate_state trim toLowerCase st m) as [->|[action ->]]; [auto|].
  split; [|apply performAction_registry].
  apply performAction_other; [now apply reachable_wf|assumption].
Qed.

Lemma dm_reaches_only_own_record_witness :
  record_of (messageCreate ascii_trim ascii_toLowerCase st_two
               (mkMessage alice true "!shutdown")).1 "222"
  = record_of st_two "222".
Proof.
  apply (dm_reaches_only_own_record ascii_trim ascii_toLowerCase st_two
           (mkMessage alice true "!shutdown") "222").
  - now exists [Create alice small; Create bob small; Action "222" "reboot"].
  - discriminate.
Defined.

(** ** Slash commands *)

(** X1.  No slash command of a user other than the administrator changes
    the state: [deploy] is refused, [manage] only reads, anything else is
    ignored. *)
Theorem non_admin_interaction_keeps_state
  (ADMIN_ID : string) (st : State) (i : Interaction) :
  User.id (user i) ≠ ADMIN_ID →
  (interactionCreate ADMIN_ID st i).1 = st.
Proof.
  intros Hu. apply String.eqb_neq in Hu.
  unfold interactionCreate. rewrite find_command.
  destruct (isChatInputCommand i); simpl; [|reflexivity].
  destruct (String.eqb "deploy" (commandName i)); simpl.
  - now rewrite Hu.
  - destruct (String.eqb "manage" (commandName i)); simpl; [|reflexivity].
    pose proof (manage_execute_run st i) as E.
    destruct (manage_execute st i) as [[st' out] []]; exact E.
Qed.

Lemma non_admin_interaction_keeps_state_witness :
  (interactionCreate "999" st_alice
     (mkInteraction true "deploy" alice bob 1 1 1 true true true true true)).1
  = st_alice.
Proof. apply non_admin_interaction_keeps_state. discriminate. Defined.

(** X2.  An interaction that is not a chat-input command, or whose command
    name is neither [deploy] nor [manage], is ignored: no reply, and the
    state stays as it was, also when it comes from the administrator. *)
Theorem interaction_ignored (ADMIN_ID : string) (st : State) (i : Interaction) :
  isChatInputCommand i = false
  ∨ (commandName i ≠ "deploy" ∧ commandName i ≠ "manage") →
  interactionCreate ADMIN_ID st i = (st, []).
Proof.
  unfold interactionCreate. rewrite find_command.
  intros [->|[H1 H2]]; [reflexivity|].
  destruct (isChatInputCommand i); simpl; [|reflexivity].
  assert (String.eqb "deploy" (commandName i) = false) as ->
    by (apply String.eqb_neq; congruence).
  assert (String.eqb "manage" (commandName i) = false) as ->
    by (apply String.eqb_neq; congruence).
  reflexivity.
Qed.

Lemma interaction_ignored_witness :
  interactionCreate "999" st_alice
    (mkInteraction true "destroy" root alice 1 1 1 true true true true true)
  = (st_alice, []).
Proof. apply interaction_ignored. right. split; discriminate. Defined.

(** X3.  [manage] is open to every user and only reads.  A user without a
    record gets the ephemeral no-VPS reply; a user with a record gets the
    ephemeral check-your-DMs reply and then a direct message that names the
    record's id.  When the reply is rejected the direct message is not
    sent and the handler answers with the generic error reply.  The state
    stays as it was in every case. *)
Theorem manage_replies (ADMIN_ID : string) (st : State) (i : Interaction) :
  reachable st →
  isChatInputCommand i = true →
  commandName i = "manage" →
  interactionCreate ADMIN_ID st i
  = (st,
     match record_of st (User.id (user i)) with
     | None =>
         Reply "You do not have a VPS deployed. Please contact an administrator." true
         :: (if reply_ok i then []
             else [Reply "There was an error while executing this command!" true])
     | Some vps =>
         Reply "✅ Please check your Direct Messages for VPS management instructions." true
         :: (if reply_ok i then
               [Send (user i)
                  ("Hello! You can manage your VPS (`" +:+ Vps.id vps
                     +:+ "`) by sending me commands in this DM. Type `!help` to see what you can do.")]
             else [Reply "There was an error while executing this command!" true])
     end).
Proof.
  intros R Hc Hn. destruct (reachable_wf st R) as (_ & Hdb & _).
  unfold interactionCreate. rewrite find_command, Hc, Hn. simpl.
  change (String.eqb "deploy" "manage") with false.
  change (String.eqb "manage" "manage") with true. simpl.
  unfold manage_execute, record_of.
  destruct (getUserVps st (User.id (user i))) as [r|] eqn:G; simpl.
  - destruct (Hdb _ _ G) as (v & Hv & _). unfold deref. rewrite Hv.
    destruct (reply_ok i); reflexivity.
  - destruct (reply_ok i); reflexivity.
Qed.

Lemma manage_replies_witness :
  interactionCreate "999" st_alice
    (mkInteraction true "manage" alice alice 0 0 0 true true true true false)
  = (st_alice,
     [Reply "✅ Please check your Direct Messages for VPS management instructions." true;
      Reply "There was an error while executing this command!" true]).
Proof.
  apply (manage_replies "999" st_alice
           (mkInteraction true "manage" alice alice 0 0 0 true true true true false)
           st_alice_reachable eq_refl eq_refl).
Defined.



(** X5.  A [deploy] by the administrator for a user who has a record edits
    the reply to the error of [createLxc], sends no direct message and
    changes nothing; when that [editReply] is rejected, the handler adds
    the generic error reply. *)
Theorem deploy_for_existing_owner
  (ADMIN_ID : string) (st : State) (i : Interaction) :
  isChatInputCommand i = true →
  commandName i = "deploy" →
  User.id (user i) = ADMIN_ID →
  deferReply_ok i = true →
  is_Some (getUserVps st (User.id (getUser_user i))) →
  interactionCreate ADMIN_ID st i
  = (st,
     DeferReply :: EditReply "❌ Error: User already has a VPS."
     :: (if editReply_ok i then []
         else [Reply "There was an error while executing this command!" true])).
Proof.
  intros Hc Hn Hu Hd [r G].
  unfold interactionCreate. rewrite find_command, Hc, Hn, Hu. simpl.
  rewrite String.eqb_refl. simpl.
  unfold deploy_execute. rewrite Hd. simpl.
  rewrite (createLxc_exists st _ _ r G).
  destruct (editReply_ok i); reflexivity.
Qed.

Lemma deploy_for_existing_owner_witness :
  interactionCreate "999" st_alice
    (mkInteraction true "deploy" root alice 2048 40 2 true true false true true)
  = (st_alice,
     [DeferReply; EditReply "❌ Error: User already has a VPS.";
      Reply "There was an error while executing this command!" true]).
Proof.
  apply (deploy_for_existing_owner "999" st_alice
           (mkInteraction true "deploy" root alice 2048 40 2 true true false true true));
    try reflexivity.
  now exists 0.
Defined.

(** X6.  When [deferReply] fails, [deploy] stops before [createLxc]: the
    state stays as it was and the handler answers with the generic error
    reply. *)
Theorem deploy_defer_failure
  (ADMIN_ID : string) (st : State) (i : Interaction) :
  isChatInputCommand i = true →
  commandName i = "deploy" →
  User.id (user i) = ADMIN_ID →
  deferReply_ok i = false →
  interactionCreate ADMIN_ID st i
  = (st,
     [DeferReply; Reply "There was an error while executing this command!" true]).
Proof.
  intros Hc Hn Hu Hd.
  unfold interactionCreate. rewrite find_command, Hc, Hn, Hu. simpl.
  rewrite String.eqb_refl. simpl.
  unfold deploy_execute. now rewrite Hd.
Qed.

Lemma deploy_defer_failure_witness :
  interactionCreate "999" initial
    (mkInteraction true "deploy" root alice 512 10 1 false true true true true)
  = (initial,
     [DeferReply; Reply "There was an error while executing this command!" true]).
Proof. apply deploy_defer_failure; reflexivity. Defined.

(** ** Direct messages *)

(** X7.  A message is dropped without a reply and without any change of
    state when its author is a bot, when it does not come through a direct
    message channel, or when its author has no record, whatever its
    text. *)
Theorem message_ignored
  (trim toLowerCase : string → string) (st : State) (m : Message) :
  User.bot (author m) = true
  ∨ channel_is_DM m = false
  ∨ getUserVps st (User.id (author m)) = None →
  messageCreate trim toLowerCase st m = (st, []).
Proof.
  unfold messageCreate. intros [->|[->|G]]; [reflexivity| |].
  - now rewrite orb_true_r.
  - destruct (User.bot (author m) || negb (channel_is_DM m)); [reflexivity|].
    now rewrite G.
Qed.

Lemma message_ignored_witness :
  messageCreate ascii_trim ascii_toLowerCase st_alice (mkMessage bob true "!reboot")
  = (st_alice, []).
Proof. apply message_ignored. right. right. reflexivity. Defined.

(** X8.  [!status] and [!ssh] only read: the reply carries the record's id
    with its current status in upper case, or the credential as stored, and
    the state stays as it was. *)
Theorem dm_status_and_ssh
  (trim toLowerCase : string → string) (st : State) (m : Message)
  (r : ref) (vps : Vps.t) :
  User.bot (author m) = false →
  channel_is_DM m = true →
  getUserVps st (User.id (author m)) = Some r →
  deref st r = Some vps →
  (commandName_of trim toLowerCase (content m) = "!status" →
   messageCreate trim toLowerCase st m
   = (st,
      [Send (author m)
         ("Your VPS (`" +:+ Vps.id vps +:+ "`) status is: **"
            +:+ match Vps.status vps with
                | offline => "OFFLINE"
                | online => "ONLINE"
                | rebooting => "REBOOTING"
                end +:+ "**")]))
  ∧ (commandName_of trim toLowerCase (content m) = "!ssh" →
     messageCreate trim toLowerCase st m
     = (st,
        [Send (author m)
           ("🔑 SSH Access for `" +:+ Vps.id vps +:+ "`:" +:+ nl
              +:+ "```" +:+ Vps.tmateSession vps +:+ "```")])).
Proof.
  intros Hb Hd G D.
  split; intros Hc; unfold messageCreate; rewrite Hb, Hd, G, Hc, D; reflexivity.
Qed.

Lemma dm_status_and_ssh_witness :
  messageCreate ascii_trim ascii_toLowerCase st_two (mkMessage bob true " !STATUS ")
  = (st_two, [Send bob "Your VPS (`LXC-1001`) status is: **REBOOTING**"]).
Proof.
  apply (proj1 (dm_status_and_ssh ascii_trim ascii_toLowerCase st_two
                  (mkMessage bob true " !STATUS ") 1
                  (Vps.mk "LXC-1001" bob small rebooting
                     "ssh bob-LXC-1001@tmate.kexson.host")
                  eq_refl eq_refl eq_refl eq_refl)).
  reflexivity.
Defined.

(** X18.  [!reboot], [!shutdown] and [!start] do what [performAction] does
    for the author with the action of that name, and confirm with a reply
    that names the record's id. *)
Theorem dm_lifecycle
  (trim toLowerCase : string → string) (st : State) (m : Message)
  (r : ref) (vps : Vps.t) :
  User.bot (author m) = false →
  channel_is_DM m = true →
  getUserVps st (User.id (author m)) = Some r →
  deref st r = Some vps →
  let userId := User.id (author m) in
  let c := commandName_of trim toLowerCase (content m) in
  (c = "!reboot" →
   messageCreate trim toLowerCase st m
   = ((performAction st userId "reboot").1,
      [Send (author m)
         ("🔄 Your VPS (`" +:+ Vps.id vps +:+ "`) is now rebooting.")]))
  ∧ (c = "!shutdown" →
     messageCreate trim toLowerCase st m
     = ((performAction st userId "shutdown").1,
        [Send (author m)
           ("🛑 Your VPS (`" +:+ Vps.id vps +:+ "`) has been shut down.")]))
  ∧ (c = "!start" →
     messageCreate trim toLowerCase st m
     = ((performAction st userId "start").1,
        [Send (author m)
           ("▶️ Your VPS (`" +:+ Vps.id vps +:+ "`) has been started.")])).
Proof.
  intros Hb Hd G D userId c. subst userId c.
  repeat split; intros Hc; unfold messageCreate; rewrite Hb, Hd, G, Hc, D;
    reflexivity.
Qed.

Lemma dm_lifecycle_witness :
  messageCreate ascii_trim ascii_toLowerCase st_alice (mkMessage alice true "!Start")
  = ((performAction st_alice "111" "start").1,
     [Send alice "▶️ Your VPS (`LXC-1000`) has been started."]).
Proof.
  apply (proj2 (proj2 (dm_lifecycle ascii_trim ascii_toLowerCase st_alice
                         (mkMessage alice true "!Start") 0 alice_vps
                         eq_refl eq_refl eq_refl eq_refl))).
  reflexivity.
Defined.

Lemma reboot_rebooted st userId r v :
  reachable st → getUserVps st userId = Some r → deref st r = Some v →
  rebooted userId r v (clock st + REBOOT_DELAY)
    (performAction st userId "reboot").1.
Proof.
  intros R G D. split; [apply wf_performAction, reachable_wf, R|].
  rewrite (performAction_reboot st userId r G). simpl.
  split; [exact G|]. exists (Vps.with_status rebooting v).
  rewrite set_status_lookup, decide_True by reflexivity.
  unfold deref in D. rewrite D. split; [reflexivity|]. split; [reflexivity|].
  right. exists (clock st + REBOOT_DELAY)%N. split.
  - apply elem_of_app. right. now apply list_elem_of_singleton.
  - unfold REBOOT_DELAY. lia.
Qed.

Lemma rebooted_online userId r v deadline st :
  rebooted userId r v deadline st → (deadline ≤ clock st)%N →
  deref st r = Some (Vps.with_status online v).
Proof.
  intros (_ & _ & v' & Hv' & Hf & Hs) L. unfold deref. rewrite Hv'.
  destruct Hs as [Hs|(due & _ & Hd)]; [|lia].
  f_equal. destruct v', v. unfold fixed_part, Vps.with_status in *.
  simpl in *. congruence.
Qed.

(** X19.  The owner's view of a reboot.  After [!reboot], a [!status] sent
    at once is answered with [REBOOTING]; a [!status] sent once 5000 ms or
    more have passed (and nothing else happened) is answered with
    [ONLINE]. *)
Theorem dm_reboot_then_status
  (trim toLowerCase : string → string) (st : State) (who : User.t)
  (r : ref) (vps : Vps.t) (text_reboot text_status : string) (dt : N) :
  reachable st →
  User.bot who = false →
  getUserVps st (User.id who) = Some r →
  deref st r = Some vps →
  commandName_of trim toLowerCase text_reboot = "!reboot" →
  commandName_of trim toLowerCase text_status = "!status" →
  (5000 ≤ dt)%N →
  let st1 := (messageCreate trim toLowerCase st (mkMessage who true text_reboot)).1 in
  (messageCreate trim toLowerCase st1 (mkMessage who true text_status)).2
  = [Send who ("Your VPS (`" +:+ Vps.id vps +:+ "`) status is: **REBOOTING**")]
  ∧ (messageCreate trim toLowerCase (elapse st1 dt) (mkMessage who true text_status)).2
    = [Send who ("Your VPS (`" +:+ Vps.id vps +:+ "`) status is: **ONLINE**")].
Proof.
  intros R Hb G D Hr Hs L st1.
  assert (st1 = (performAction st (User.id who) "reboot").1) as E.
  { subst st1. unfold messageCreate. simpl. now rewrite Hb, G, Hr, D. }
  pose proof (reboot_rebooted st (User.id who) r vps R G D) as H.
  rewrite <- E in H.
  assert (getUserVps st1 (User.id who) = Some r) as G1 by apply H.
  assert (deref st1 r = Some (Vps.with_status rebooting vps)) as D1.
  { rewrite E, (performAction_reboot st _ r G). unfold deref in *. simpl.
    rewrite set_status_lookup, decide_True by reflexivity. now rewrite D. }
  split.
  - unfold messageCreate. simpl. now rewrite Hb, G1, Hs, D1.
  - pose proof (rebooted_run _ _ _ _ [Elapse dt] st1 eq_refl H) as H2.
    simpl in H2.
    assert (getUserVps (elapse st1 dt) (User.id who) = Some r) as G2 by apply H2.
    apply rebooted_online in H2.
    + unfold messageCreate. simpl. now rewrite Hb, G2, Hs, H2.
    + pose proof (run_clock [Elapse dt] st1) as C. simpl in C. rewrite C.
      rewrite E, (performAction_reboot st _ r G). simpl. unfold REBOOT_DELAY. lia.
Qed.

Lemma dm_reboot_then_status_witness :
  (messageCreate ascii_trim ascii_toLowerCase
     (elapse (messageCreate ascii_trim ascii_toLowerCase st_alice
                (mkMessage alice true "!reboot")).1 5000)
     (mkMessage alice true "!status")).2
  = [Send alice "Your VPS (`LXC-1000`) status is: **ONLINE**"].
Proof.
  apply (proj2 (dm_reboot_then_status ascii_trim ascii_toLowerCase st_alice alice
                  0 alice_vps "!reboot" "!status" 5000
                  st_alice_reachable eq_refl eq_refl eq_refl eq_refl eq_refl
                  (N.le_refl 5000))).
Defined.

Lemma string_of_list_ascii_snoc l c w :
  string_of_list_ascii (l ++ [c]) +:+ w = string_of_list_ascii l +:+ String c w.
Proof. induction l as [|x l IH]; simpl; app_norm; [reflexivity|now rewrite IH]. Qed.

Lemma split_first_word (w : string) : ∀ acc rest,
  no_space w = true →
  hd "" (split_spaces_from acc false (w +:+ String " " rest))
  = string_of_list_ascii (rev acc) +:+ w.
Proof.
  induction w as [|c w IH]; intros acc rest H; app_norm; simpl.
  - clear. induction (rev acc); simpl; app_norm; congruence.
  - simpl in H. apply andb_prop in H as [Hc Hw].
    apply negb_true_iff in Hc. rewrite Hc, IH by assumption.
    simpl. apply string_of_list_ascii_snoc.
Qed.

Lemma split_one_word (w : string) : ∀ acc,
  no_space w = true →
  split_spaces_from acc false w = [string_of_list_ascii (rev acc) +:+ w].
Proof.
  induction w as [|c w IH]; intros acc H; simpl.
  - f_equal. clear. induction (rev acc); simpl; app_norm; congruence.
  - simpl in H. apply andb_prop in H as [Hc Hw].
    apply negb_true_iff in Hc. rewrite Hc, IH by assumption.
    simpl. f_equal. apply string_of_list_ascii_snoc.
Qed.

(** X20.  Only the first word of a message counts.  If the trimmed text of
    one message is a word [w] without spaces, and the trimmed text of
    another is [w], a space and anything at all, then the command name of
    both is [w] in lower case and the handler does the same for both: same
    state, same reply. *)
Theorem dm_arguments_ignored
  (trim toLowerCase : string → string) (st : State) (who : User.t)
  (dm : bool) (text1 text2 w rest : string) :
  no_space w = true →
  trim text1 = w →
  trim text2 = w +:+ " " +:+ rest →
  commandName_of trim toLowerCase text2 = toLowerCase w
  ∧ messageCreate trim toLowerCase st (mkMessage who dm text2)
    = messageCreate trim toLowerCase st (mkMessage who dm text1).
Proof.
  intros H E1 E2.
  assert (commandName_of trim toLowerCase text1 = toLowerCase w) as C1.
  { unfold commandName_of, split_spaces. rewrite E1, split_one_word by assumption.
    reflexivity. }
  assert (commandName_of trim toLowerCase text2 = toLowerCase w) as C2.
  { unfold commandName_of, split_spaces. rewrite E2.
    change (w +:+ " " +:+ rest) with (w +:+ String " " rest).
    rewrite split_first_word by assumption. reflexivity. }
  split; [exact C2|]. unfold messageCreate. simpl. now rewrite C1, C2.
Qed.

Lemma dm_arguments_ignored_witness :
  messageCreate ascii_trim ascii_toLowerCase st_alice
    (mkMessage alice true " !reboot  now, please ")
  = messageCreate ascii_trim ascii_toLowerCase st_alice
      (mkMessage alice true "!reboot").
Proof.
  apply (proj2 (dm_arguments_ignored ascii_trim ascii_toLowerCase st_alice alice
                  true "!reboot" " !reboot  now, please " "!reboot"
                  " now, please" eq_refl eq_refl eq_refl)).
Defined.
